(** * NetzNoeSmartmeter: the statistics importer of the [wnsm] sensor

    A shallow embedding of [custom_components/wnsm/utils.py] and of the
    import path of [custom_components/wnsm/sensor.py]
    ([SmartmeterSensor.is_active], [SmartmeterSensor._import_statistics],
    [SmartmeterSensor.async_update]), followed by the properties of the
    importer that the specification states.

    Conventions of the embedding:
    - a Python call that may raise is a value of [result]; [Raise e] carries
      the exception class;
    - JSON-like values (the API payloads, the dictionaries handled by
      [utils.py]) are values of [json]; a [dict] with string keys is a
      [gmap string json];
    - a Python [str] is a Rocq [string] whose characters are read as the code
      points 0..255;
    - awaited calls are sequential: [await f(x)] is just the call. *)

From Stdlib Require Import ZArith String Ascii List Lia Bool.
From Stdlib Require Import Floats.SpecFloat.
From stdpp Require Import gmap strings list fin_maps.

Local Open Scope Z_scope.

(** ** Python runtime: exceptions and values *)

Module Py.

(** The exception classes that the embedded code can meet.  All of them but
    none of Python's [BaseException]-only classes derive from [Exception]. *)
Inductive exn :=
  | TypeError
  | ValueError
  | KeyError
  | IndexError
  | RuntimeError
  | OverflowError
  | DecimalOverflow
  | DecimalInvalidOperation.

Inductive result (A : Type) :=
  | Ok (a : A)
  | Raise (e : exn).
Arguments Ok {A} a.
Arguments Raise {A} e.

Definition bind {A B} (r : result A) (k : A -> result B) : result B :=
  match r with
  | Ok a => k a
  | Raise e => Raise e
  end.

(** [[f(x) for x in l]] for an [f] that may raise: the first exception wins. *)
Fixpoint mapM {A B} (f : A -> result B) (l : list A) : result (list B) :=
  match l with
  | [] => Ok []
  | x :: l' => bind (f x) (fun y => bind (mapM f l') (fun ys => Ok (y :: ys)))
  end.

(** [functools.reduce(f, l, init)] for an [f] that may raise. *)
Fixpoint reduceM {A B} (f : B -> A -> result B) (l : list A) (init : B) : result B :=
  match l with
  | [] => Ok init
  | x :: l' => bind (f init x) (reduceM f l')
  end.

#[warnings="-register-all"]
Inductive json :=
  | JNull
  | JBool (b : bool)
  | JInt (z : Z)
  | JFloat (f : spec_float)
  | JStr (s : string)
  | JList (l : list json)
  | JDict (m : gmap string json).

(** Python truthiness ([bool(x)], as used by [not], [or] and [if]). *)
Definition truthy (v : json) : bool :=
  match v with
  | JNull => false
  | JBool b => b
  | JInt z => negb (z =? 0)
  | JFloat (S754_zero _) => false
  | JFloat _ => true
  | JStr s => negb (String.eqb s "")
  | JList l => negb (Nat.eqb (List.length l) 0)
  | JDict m => negb (Nat.eqb (size m) 0)
  end.

Definition is_None (v : json) : bool :=
  match v with
  | JNull => true
  | _ => false
  end.

(** [x or y]: the first operand when it is truthy, else the second. *)
Definition py_or (x y : json) : json := if truthy x then x else y.

End Py.
Import Py.

(** [result] is used through stdpp's monad notation [x ← c; k]. *)
#[global] Instance result_bind : MBind result := fun A B k r => Py.bind r k.
#[global] Instance result_ret : MRet result := @Ok.

(** ** [utils.py] *)

Module Utils.

(** An element of a path after [strint]: an [int] index or a [str] key. *)
Inductive accessor :=
  | AInt (n : Z)
  | AStr (s : string).

(** [str.split(".")]: the segments between dots; never the empty list. *)
Fixpoint split_dot (s : string) : list string :=
  match s with
  | EmptyString => [EmptyString]
  | String c s' =>
      if Ascii.eqb c "."
      then EmptyString :: split_dot s'
      else match split_dot s' with
           | seg :: segs => String c seg :: segs
           | [] => [String c EmptyString]
           end
  end.

(** The characters below 256 for which [str.isdigit] holds: the ASCII digits
    and the superscripts U+00B2, U+00B3, U+00B9. *)
Definition ascii_digit (c : ascii) : bool :=
  let n := Z.of_nat (nat_of_ascii c) in (48 <=? n) && (n <=? 57).

Definition superscript_digit (c : ascii) : bool :=
  let n := Z.of_nat (nat_of_ascii c) in (n =? 178) || (n =? 179) || (n =? 185).

Fixpoint all_chars (p : ascii -> bool) (s : string) : bool :=
  match s with
  | EmptyString => true
  | String c s' => p c && all_chars p s'
  end.

(** [str.isdigit()]: at least one character and all of them digits. *)
Definition isdigit (s : string) : bool :=
  match s with
  | EmptyString => false
  | _ => all_chars (fun c => ascii_digit c || superscript_digit c) s
  end.

Fixpoint decimal_value (acc : Z) (s : string) : Z :=
  match s with
  | EmptyString => acc
  | String c s' => decimal_value (10 * acc + (Z.of_nat (nat_of_ascii c) - 48)) s'
  end.

(** [int(s)] on a string for which [isdigit] holds: the superscripts are
    digits for [isdigit] but not decimal characters for [int], which raises
    [ValueError] on them. *)
Definition int_of_str (s : string) : result Z :=
  if all_chars ascii_digit s then Ok (decimal_value 0 s) else Raise ValueError.

(** [strint]; the path segments are never [None]. *)
Definition strint (s : string) : result accessor :=
  if isdigit s then n ← int_of_str s; Ok (AInt n) else Ok (AStr s).

Definition is_valid_access (data : json) (a : accessor) : bool :=
  match a, data with
  | AInt n, JList l => n <? Z.of_nat (List.length l)
  | AStr s, JDict m => bool_decide (is_Some (m !! s))
  | _, _ => false
  end.

(** The subscription [data[a]] of Python, with the exceptions it raises. *)
Definition getitem (data : json) (a : accessor) : result json :=
  match data, a with
  | JList l, AInt n =>
      let i := if n <? 0 then n + Z.of_nat (List.length l) else n in
      if i <? 0 then Raise IndexError
      else match l !! Z.to_nat i with
           | Some v => Ok v
           | None => Raise IndexError
           end
  | JList _, AStr _ => Raise TypeError
  | JDict m, AStr s =>
      match m !! s with
      | Some v => Ok v
      | None => Raise KeyError
      end
  | JDict _, AInt _ => Raise KeyError
  | JStr s, AInt n =>
      let i := if n <? 0 then n + Z.of_nat (String.length s) else n in
      if i <? 0 then Raise IndexError
      else match String.get (Z.to_nat i) s with
           | Some c => Ok (JStr (String c EmptyString))
           | None => Raise IndexError
           end
  | _, _ => Raise TypeError
  end.

(** The accessors that [strint] produces: an index is never negative. *)
Definition from_strint (a : accessor) : Prop :=
  match a with
  | AInt n => 0 <= n
  | AStr _ => True
  end.

(** The lambda given to [reduce] in [dict_path]. *)
Definition dict_path_step (acc : json) (i : accessor) : result json :=
  if is_valid_access acc i then getitem acc i else Ok JNull.

(** The body of the [try] of [dict_path]. *)
Definition dict_path_try (path : string) (dictionary : json) : result json :=
  accs ← mapM strint (split_dot path);
  reduceM dict_path_step accs dictionary.

(** [dict_path]: both handlers log and fall through to [return None]. *)
Definition dict_path (path : string) (dictionary : json) : json :=
  match dict_path_try path dictionary with
  | Ok v => v
  | Raise KeyError => JNull
  | Raise _ => JNull
  end.

Definition translate_dict (dictionary : json) (attrs_list : list (string * string))
  : gmap string json :=
  fold_left
    (fun (result : gmap string json) '(src, dest) =>
       let value := dict_path src dictionary in
       if is_None value then result else <[dest := value]> result)
    attrs_list ∅.

(** The value that a path addresses: the chain of plain subscriptions
    [dictionary[a1][a2]...], without any validity check. *)
Definition subscript_all (accs : list accessor) (dictionary : json) : result json :=
  reduceM getitem accs dictionary.

End Utils.

(** ** [datetime]: instants, offsets and the fields the importer reads *)

Module Datetime.

(** A [timedelta], in microseconds. *)
Definition timedelta := Z.
Definition hours (h : Z) : timedelta := h * 3600000000.
Definition days (d : Z) : timedelta := d * 86400000000.

(** A [tzinfo] of fixed offset, in seconds east of UTC. *)
Definition tzinfo := Z.
Definition timezone_utc : tzinfo := 0.

(** A timezone-aware [datetime]: the instant in microseconds since the
    epoch, and the UTC offset of its [tzinfo].  The calendar fields are
    those of the wall clock [local_us]. *)
Record datetime := { utc_us : Z; utcoffset : tzinfo }.

Definition local_us (d : datetime) : Z := utc_us d + utcoffset d * 1000000.
Definition minute (d : datetime) : Z := (local_us d / 60000000) mod 60.
Definition second (d : datetime) : Z := (local_us d / 1000000) mod 60.
Definition microsecond (d : datetime) : Z := local_us d mod 1000000.

(** [d.replace(minute=0, second=0, microsecond=0)] *)
Definition replace_minute_second_microsecond_0 (d : datetime) : datetime :=
  {| utc_us := utc_us d - local_us d mod 3600000000; utcoffset := utcoffset d |}.

(** [d.replace(microsecond=0)] *)
Definition replace_microsecond_0 (d : datetime) : datetime :=
  {| utc_us := utc_us d - local_us d mod 1000000; utcoffset := utcoffset d |}.

(** [d + delta]; aware datetimes are compared and subtracted as instants. *)
Definition add (d : datetime) (delta : timedelta) : datetime :=
  {| utc_us := utc_us d + delta; utcoffset := utcoffset d |}.
Definition sub (a b : datetime) : timedelta := utc_us a - utc_us b.
Definition ltb (a b : datetime) : bool := utc_us a <? utc_us b.

(** [datetime.now(timezone.utc)] when the clock shows the instant [now_us]. *)
Definition now_utc (now_us : Z) : datetime := {| utc_us := now_us; utcoffset := 0 |}.

(** A [datetime] as Python has it: aware, or naive (a wall clock reading with
    [tzinfo] [None]). *)
Inductive pydatetime :=
  | Aware (d : datetime)
  | Naive (wall_us : Z).

Definition py_add (d : pydatetime) (delta : timedelta) : pydatetime :=
  match d with
  | Aware a => Aware (add a delta)
  | Naive w => Naive (w + delta)
  end.

(** Days since the epoch of a date of the proleptic Gregorian calendar, and
    the aware UTC datetime of a calendar date and time of day. *)
Definition days_from_civil (y m d : Z) : Z :=
  let y' := if m <=? 2 then y - 1 else y in
  let era := y' / 400 in
  let yoe := y' - era * 400 in
  let mp := (m + 9) mod 12 in
  let doy := (153 * mp + 2) / 5 + d - 1 in
  let doe := yoe * 365 + yoe / 4 - yoe / 100 + doy in
  era * 146097 + doe - 719468.

Definition utc (y m d hh mm ss : Z) : datetime :=
  now_utc ((days_from_civil y m d * 86400 + hh * 3600 + mm * 60 + ss) * 1000000).

End Datetime.

(** ** [float] and [decimal.Decimal] *)

Module Num.

(** Python's [float] is IEEE 754 binary64: [spec_float] with the operations
    of [SpecFloat] at precision 53 and maximal exponent 1024. *)
Definition prec := 53.
Definition emax := 1024.

(** [float(z)] for an [int]: correctly rounded, [OverflowError] when too large. *)
Definition float_of_int (z : Z) : result spec_float :=
  match binary_normalize prec emax z 0 false with
  | S754_infinity _ => Raise OverflowError
  | f => Ok f
  end.

(** The literal [1000.0]. *)
Definition float_1000 : spec_float := S754_finite false 8796093022208000 (-43).

(** [z / y] for an [int] [z] and a non-zero [float] [y]. *)
Definition int_truediv (z : Z) (y : spec_float) : result spec_float :=
  x ← float_of_int z; Ok (SFdiv prec emax x y).

(** A [Decimal]: [DFinite c e] is the number c * 10^e.  The sign of a zero
    is not kept. *)
Inductive Decimal :=
  | DFinite (c e : Z)
  | DInfinity (negative : bool)
  | DNaN.

(** The default context: 28 digits, ROUND_HALF_EVEN, Emax = 999999,
    Emin = -999999, clamp = 0; Overflow and InvalidOperation are trapped. *)
Definition ctx_prec := 28.
Definition Emax := 999999.
Definition Etiny := -1000026.
Definition Etop := 999972.

(** [float.as_integer_ratio] reduces the fraction m / 2^k. *)
Fixpoint reduce2 (m : positive) (k : nat) {struct k} : positive * nat :=
  match k, m with
  | S k', xO m' => reduce2 m' k'
  | _, _ => (m, k)
  end.

(** [Decimal(f)] for a [float]: the exact value of [f]. *)
Definition Decimal_of_float (f : spec_float) : Decimal :=
  match f with
  | S754_zero _ => DFinite 0 0
  | S754_infinity s => DInfinity s
  | S754_nan => DNaN
  | S754_finite s m e =>
      let sign := if s then -1 else 1 in
      if 0 <=? e then DFinite (sign * (Zpos m * 2 ^ e)) 0
      else let '(n, k) := reduce2 m (Z.to_nat (- e)) in
           DFinite (sign * (Zpos n * 5 ^ Z.of_nat k)) (- Z.of_nat k)
  end.

(** The number of decimal digits of a positive number. *)
Fixpoint digits_fuel (fuel : nat) (n : Z) : Z :=
  match fuel with
  | O => 1
  | S fuel' => if n <? 10 then 1 else 1 + digits_fuel fuel' (n / 10)
  end.

Definition digits (n : Z) : Z := digits_fuel (Z.to_nat (Z.log2 n)) n.

(** The integer nearest to c / d, ties to the even one (d > 0). *)
Definition round_half_even (c d : Z) : Z :=
  let q := c / d in
  let r := c mod d in
  match 2 * r ?= d with
  | Lt => q
  | Gt => q + 1
  | Eq => if Z.even q then q else q + 1
  end.

(** The final step of every arithmetic operation ([Decimal._fix]): round
    the exact result c * 10^e to the context. *)
Definition fix_context (c e : Z) : result Decimal :=
  if c =? 0 then Ok (DFinite 0 (Z.min (Z.max e Etiny) Emax))
  else
    let exp_min := digits (Z.abs c) + e - ctx_prec in
    if Etop <? exp_min then Raise DecimalOverflow
    else
      let exp_min := Z.max exp_min Etiny in
      if e <? exp_min then
        let q := round_half_even c (10 ^ (exp_min - e)) in
        let '(q, exp_min) :=
          if 10 ^ ctx_prec <=? Z.abs q then (q / 10, exp_min + 1) else (q, exp_min) in
        if Etop <? exp_min then Raise DecimalOverflow else Ok (DFinite q exp_min)
      else Ok (DFinite c e).

(** [a + b]: the exact sum at the smaller exponent, then [fix_context]. *)
Definition Decimal_add (a b : Decimal) : result Decimal :=
  match a, b with
  | DNaN, _ | _, DNaN => Ok DNaN
  | DInfinity s1, DInfinity s2 =>
      if Bool.eqb s1 s2 then Ok a else Raise DecimalInvalidOperation
  | DInfinity _, DFinite _ _ => Ok a
  | DFinite _ _, DInfinity _ => Ok b
  | DFinite c1 e1, DFinite c2 e2 =>
      let e := Z.min e1 e2 in
      fix_context (c1 * 10 ^ (e1 - e) + c2 * 10 ^ (e2 - e)) e
  end.

(** Numerical comparison of Decimals; a NaN is not ordered. *)
Definition Dle (a b : Decimal) : Prop :=
  match a, b with
  | DFinite c1 e1, DFinite c2 e2 =>
      let e := Z.min e1 e2 in c1 * 10 ^ (e1 - e) <= c2 * 10 ^ (e2 - e)
  | DInfinity true, DFinite _ _ | DInfinity true, DInfinity _ => True
  | DFinite _ _, DInfinity false | DInfinity false, DInfinity false => True
  | _, _ => False
  end.

Definition Deq (a b : Decimal) : Prop := Dle a b /\ Dle b a.

(** A Decimal as the context leaves it: at most 28 digits, the exponent
    not below Etiny; or an infinity. *)
Definition canonical (d : Decimal) : Prop :=
  match d with
  | DFinite c e => Z.abs c < 10 ^ ctx_prec /\ Etiny <= e
  | DInfinity _ => True
  | DNaN => False
  end.

Definition nonnegative (d : Decimal) : Prop :=
  match d with
  | DFinite c _ => 0 <= c
  | DInfinity negative => negative = false
  | DNaN => False
  end.

(** A float that is a zero, a finite number or an infinity of the sign [sx]. *)
Definition signed (sx : bool) (f : spec_float) : Prop :=
  match f with
  | S754_zero s | S754_infinity s | S754_finite s _ _ => s = sx
  | S754_nan => False
  end.

End Num.
Import Utils Datetime Num.

(** ** [sensor.py]: [SmartmeterSensor] *)

Module Sensor.

(** One element of [verbrauch['values']].  [timestamp] is the aware datetime
    that [dt_util.parse_datetime(v['timestamp'])] returns, [value] is [None]
    or an [int] (the raw reading), [isEstimated] its flag. *)
Record Reading := {
  timestamp : datetime;
  value : option Z;
  isEstimated : bool
}.

(** The dictionary [verbrauch] that [get_consumption] returns, by the keys
    the importer reads; [None] is an absent key. *)
Record Verbrauch := {
  values : option (list Reading);
  optIn : option json;
  consumptionMinimum : option json;
  consumptionMaximum : option json
}.

(** [StatisticData(start=ts, sum=sum_, state=usage)] *)
Record StatisticData := {
  stat_start : datetime;
  stat_sum : Decimal;
  stat_state : Decimal
}.

(** [x == 0] for a JSON value. *)
Definition eq_0 (x : json) : bool :=
  match x with
  | JInt z => z =? 0
  | JFloat (S754_zero _) => true
  | JBool b => negb b
  | _ => false
  end.

(** [verbrauch.get(key)], with [None] for an absent key. *)
Definition dict_get (x : option json) : json := default JNull x.

(** [Decimal(v['value'] / 1000.0)] *)
Definition usage_of (raw : Z) : result Decimal :=
  q ← int_truediv raw float_1000; Ok (Decimal_of_float q).

(** How a loop body ends: the loop goes on with a new state, or the
    function executes [return]. *)
Inductive flow (A : Type) :=
  | Next (a : A)
  | Return.
Arguments Next {A} a.
Arguments Return {A}.

(** The variables that the [for] loop over the readings updates. *)
Record Acc := {
  last_ts : datetime;
  sum_ : Decimal;
  statistics : list StatisticData
}.

(** The body of [for v in verbrauch['values']]. *)
Definition process_reading (st : Acc) (v : Reading) : result (flow Acc) :=
  let ts := timestamp v in
  if negb (minute ts =? 0) then Ok Return
  else if Datetime.ltb ts (last_ts st) then Ok (Next st)
  else
    match value v with
    | None =>
        Ok (Next {| last_ts := ts; sum_ := sum_ st; statistics := statistics st |})
    | Some raw =>
        usage ← usage_of raw;
        s ← Decimal_add (sum_ st) usage;
        Ok (Next {| last_ts := ts; sum_ := s;
                    statistics := statistics st
                                    ++ [{| stat_start := ts; stat_sum := s; stat_state := usage |}] |})
    end.

Fixpoint process_values (vs : list Reading) (st : Acc) : result (flow Acc) :=
  match vs with
  | [] => Ok (Next st)
  | v :: vs' =>
      r ← process_reading st v;
      match r with
      | Next st' => process_values vs' st'
      | Return => Ok Return
      end
  end.

(** How a call of [_import_statistics] ends. *)
Inductive outcome :=
  | Imported (stats : list StatisticData)
      (** [async_import_statistics(self.hass, metadata, stats)] was called *)
  | Aborted
      (** an early [return]: nothing is handed to the recorder *)
  | Failed (e : exn).
      (** an exception left the function *)

(** A run: the start instants given to [get_consumption], in call order,
    and how the run ended. *)
Record Run := {
  fetched : list datetime;
  result_of : outcome
}.

Section ImportStatistics.

(** [self.get_consumption(smartmeter, start)]: the Reading Source. *)
Variable get_consumption : datetime -> result Verbrauch.

(** The [while start < now] loop; one unit of fuel per test of the
    condition. *)
Fixpoint import_loop (fuel : nat) (now start : datetime) (sum_ : Decimal)
    (statistics : list StatisticData) (fetched : list datetime) : option Run :=
  match fuel with
  | O => None
  | S fuel' =>
      if Datetime.ltb start now then
        let fetched := fetched ++ [start] in
        match get_consumption start with
        | Raise e => Some {| fetched := fetched; result_of := Failed e |}
        | Ok verbrauch =>
            let last_ts := start in
            let start := Datetime.add start (hours 24) in
            match values verbrauch with
            | None => Some {| fetched := fetched; result_of := Aborted |}
            | Some vs =>
                if negb (truthy (dict_get (optIn verbrauch))) then
                  import_loop fuel' now start sum_ statistics fetched
                else if eq_0 (dict_get (consumptionMinimum verbrauch))
                        && eq_0 (dict_get (consumptionMaximum verbrauch)) then
                  import_loop fuel' now start sum_ statistics fetched
                else
                  match process_values vs
                          {| last_ts := last_ts; sum_ := sum_; statistics := statistics |} with
                  | Raise e => Some {| fetched := fetched; result_of := Failed e |}
                  | Ok Return => Some {| fetched := fetched; result_of := Aborted |}
                  | Ok (Next st) =>
                      import_loop fuel' now start (Sensor.sum_ st) (Sensor.statistics st) fetched
                  end
            end
        end
      else Some {| fetched := fetched; result_of := Imported statistics |}
  end.

(** The number of tests of [start < now] that the loop can make. *)
Definition loop_fuel (now start : datetime) : nat :=
  S (Z.to_nat ((utc_us now - utc_us start + hours 24 - 1) / hours 24)).

(** [_import_statistics(smartmeter, start, sum_)], when
    [datetime.now(timezone.utc)] is [now]. *)
Definition _import_statistics (now : datetime) (start : pydatetime) (sum_ : Decimal)
  : option Run :=
  match start with
  | Naive _ => Some {| fetched := []; result_of := Failed ValueError |}
  | Aware start =>
      let start := replace_minute_second_microsecond_0 start in
      let now := replace_minute_second_microsecond_0 now in
      import_loop (loop_fuel now start) now start sum_ [] []
  end.

End ImportStatistics.

(** The runs of the loop as a relation, one rule per way through the loop
    body: [loop_run now start sum_ statistics calls o] when the loop entered
    with these variables makes the calls [calls] to [get_consumption] and
    ends as [o]. *)
Section LoopRelation.

Variable get_consumption : datetime -> result Verbrauch.
Variable now : datetime.

Definition skipped (verbrauch : Verbrauch) : bool :=
  negb (truthy (dict_get (optIn verbrauch)))
  || (eq_0 (dict_get (consumptionMinimum verbrauch))
      && eq_0 (dict_get (consumptionMaximum verbrauch))).

Inductive loop_run :
  datetime -> Decimal -> list StatisticData -> list datetime -> outcome -> Prop :=
  | run_exit start sum_ statistics :
      Datetime.ltb start now = false ->
      loop_run start sum_ statistics [] (Imported statistics)
  | run_fetch_raises start sum_ statistics e :
      Datetime.ltb start now = true ->
      get_consumption start = Raise e ->
      loop_run start sum_ statistics [start] (Failed e)
  | run_no_values start sum_ statistics verbrauch :
      Datetime.ltb start now = true ->
      get_consumption start = Ok verbrauch ->
      values verbrauch = None ->
      loop_run start sum_ statistics [start] Aborted
  | run_skip start sum_ statistics verbrauch vs calls o :
      Datetime.ltb start now = true ->
      get_consumption start = Ok verbrauch ->
      values verbrauch = Some vs ->
      skipped verbrauch = true ->
      loop_run (Datetime.add start (hours 24)) sum_ statistics calls o ->
      loop_run start sum_ statistics (start :: calls) o
  | run_values_raise start sum_ statistics verbrauch vs e :
      Datetime.ltb start now = true ->
      get_consumption start = Ok verbrauch ->
      values verbrauch = Some vs ->
      skipped verbrauch = false ->
      process_values vs {| last_ts := start; sum_ := sum_; statistics := statistics |}
        = Raise e ->
      loop_run start sum_ statistics [start] (Failed e)
  | run_values_return start sum_ statistics verbrauch vs :
      Datetime.ltb start now = true ->
      get_consumption start = Ok verbrauch ->
      values verbrauch = Some vs ->
      skipped verbrauch = false ->
      process_values vs {| last_ts := start; sum_ := sum_; statistics := statistics |}
        = Ok Return ->
      loop_run start sum_ statistics [start] Aborted
  | run_values_next start sum_ statistics verbrauch vs st calls o :
      Datetime.ltb start now = true ->
      get_consumption start = Ok verbrauch ->
      values verbrauch = Some vs ->
      skipped verbrauch = false ->
      process_values vs {| last_ts := start; sum_ := sum_; statistics := statistics |}
        = Ok (Next st) ->
      loop_run (Datetime.add start (hours 24)) (Sensor.sum_ st) (Sensor.statistics st) calls o ->
      loop_run start sum_ statistics (start :: calls) o.

End LoopRelation.

(** The sums of a sequence of points chain from [prev]: each [sum] is the
    [Decimal] addition of the sum before it and the point's [state]. *)
Fixpoint sum_chain (prev : Decimal) (l : list StatisticData) : Prop :=
  match l with
  | [] => True
  | p :: l' => Decimal_add prev (stat_state p) = Ok (stat_sum p) /\ sum_chain (stat_sum p) l'
  end.

(** The timestamps of a sequence of points never go back, from [t] on. *)
Fixpoint nondecreasing_from (t : datetime) (l : list StatisticData) : Prop :=
  match l with
  | [] => True
  | p :: l' => utc_us t <= utc_us (stat_start p) /\ nondecreasing_from (stat_start p) l'
  end.

(** Adjacent points of a sequence are related by [R]. *)
Fixpoint adjacent (R : StatisticData -> StatisticData -> Prop) (l : list StatisticData) : Prop :=
  match l with
  | p :: (q :: _) as l' => R p q /\ adjacent R l'
  | _ => True
  end.

Definition strictly_increasing_timestamps (l : list StatisticData) : Prop :=
  adjacent (fun p q => utc_us (stat_start p) < utc_us (stat_start q)) l.

Definition nondecreasing_sums (l : list StatisticData) : Prop :=
  adjacent (fun p q => Dle (stat_sum p) (stat_sum q)) l.

(** The sum that a sequence of points ends on, [prev] when it is empty. *)
Definition last_sum (prev : Decimal) (l : list StatisticData) : Decimal :=
  match last l with
  | Some p => stat_sum p
  | None => prev
  end.

(** The point [p] was made from a reading of [vs] that has a value. *)
Definition from_reading (vs : list Reading) (p : StatisticData) : Prop :=
  exists r raw,
    r ∈ vs /\ value r = Some raw /\ stat_start p = timestamp r
    /\ usage_of raw = Ok (stat_state p).

(** [is_active]: the value of the [or] chain. *)
Definition is_active (zaehlpunkt_response : gmap string json) : json :=
  py_or
    (match zaehlpunkt_response !! "active" with
     | None => JBool true
     | Some v => v
     end)
    (match zaehlpunkt_response !! "smartMeterReady" with
     | None => JBool true
     | Some v => v
     end).

(** [utils.today]: the start of the day of the local wall clock, naive.
    The function has no parameter; a call with arguments raises
    [TypeError]. *)
Definition today (wall_us : Z) : pydatetime := Naive (wall_us - wall_us mod 86400000000).

Definition call_today (args : list tzinfo) (wall_us : Z) : result pydatetime :=
  match args with
  | [] => Ok (today wall_us)
  | _ :: _ => Raise TypeError
  end.

(** The field [row["end"]] of a row of [get_last_statistics], by its
    Python type. *)
Inductive end_value :=
  | EndNumber (instant_us : Z)
      (** an [int] or [float]; [dt_util.utc_from_timestamp] makes it the
          aware UTC datetime of this instant *)
  | EndStr (parsed : option pydatetime)
      (** a [str], with what [dt_util.parse_datetime] returns for it *)
  | EndDatetime (d : pydatetime)
  | EndOther.

(** A row: [row["end"]] and the value of [Decimal(row["sum"])]. *)
Record StatRow := {
  row_end : end_value;
  row_sum : Decimal
}.

(** The two [isinstance] coercions of [async_update]; [None] when the
    result is not a [datetime]. *)
Definition coerce_end (e : end_value) : option pydatetime :=
  match e with
  | EndNumber t => Some (Aware (now_utc t))
  | EndStr parsed => parsed
  | EndDatetime d => Some d
  | EndOther => None
  end.

(** The calls made on the [Smartmeter] client. *)
Inductive api_call :=
  | CallLogin
  | CallZaehlpunkte
  | CallVerbrauch (start : datetime).

(** What one call of [async_update] meets: the recorder's answer, the
    clock readings in program order, and the answers of the API. *)
Record World := {
  self_id : string;
  last_inserted_stat : gmap string (list StatRow);
  clock_today : Z;
  clock_delta_t : Z;
  clock_import : Z;
  login : result unit;
  get_zaehlpunkt : result (gmap string json);
  get_consumption : datetime -> result Verbrauch
}.

(** What one call of [async_update] leaves behind. *)
Record Update := {
  available : bool;
  calls : list api_call;
  imported : option (list StatisticData);
  raised : option exn
}.

Definition returned (calls : list api_call) : Update :=
  {| available := true; calls := calls; imported := None; raised := None |}.

Definition propagated (calls : list api_call) (e : exn) : Update :=
  {| available := true; calls := calls; imported := None; raised := Some e |}.

(** The handler [except RuntimeError] of the [try] block; any other
    exception leaves [async_update]. *)
Definition handled (calls : list api_call) (e : exn) : Update :=
  match e with
  | RuntimeError => {| available := false; calls := calls; imported := None; raised := None |}
  | _ => propagated calls e
  end.

(** The resume decision: where to start and with which sum, or leave. *)
Inductive resume :=
  | Proceed (start : pydatetime) (sum_ : Decimal)
  | Leave.

Definition resume_decision (w : World) : result resume :=
  let stat := last_inserted_stat w in
  rows ← (if Nat.eqb (size stat) 0 then Ok []
          else match stat !! self_id w with
               | Some rows => Ok rows
               | None => Raise KeyError
               end);
  match rows with
  | [] =>
      let _sum := DFinite 0 0 in
      t ← call_today [timezone_utc] (clock_today w);
      Ok (Proceed (py_add t (- hours 48)) _sum)
  | [row] =>
      if Nat.eqb (size stat) 1 then
        let _sum := row_sum row in
        match coerce_end (row_end row) with
        | None => Ok Leave
        | Some (Naive _) => Raise TypeError
        | Some (Aware start) =>
            let min_wait := hours 24 in
            let delta_t :=
              Datetime.sub (replace_microsecond_0 (now_utc (clock_delta_t w)))
                           (replace_microsecond_0 start) in
            if delta_t <=? min_wait then Ok Leave
            else Ok (Proceed (Aware start) _sum)
        end
      else Ok Leave
  | _ => Ok Leave
  end.

Definition async_update (w : World) : option Update :=
  match resume_decision w with
  | Raise e => Some (propagated [] e)
  | Ok Leave => Some (returned [])
  | Ok (Proceed start _sum) =>
      match login w with
      | Raise e => Some (handled [CallLogin] e)
      | Ok _ =>
          match get_zaehlpunkt w with
          | Raise e => Some (handled [CallLogin; CallZaehlpunkte] e)
          | Ok zaehlpunkt =>
              if negb (truthy (is_active zaehlpunkt)) then
                Some {| available := false; calls := [CallLogin; CallZaehlpunkte];
                        imported := None; raised := None |}
              else
                run ← _import_statistics (get_consumption w) (now_utc (clock_import w)) start _sum;
                let calls := [CallLogin; CallZaehlpunkte] ++ map CallVerbrauch (fetched run) in
                Some match result_of run with
                     | Imported stats =>
                         {| available := true; calls := calls;
                            imported := Some stats; raised := None |}
                     | Aborted => returned calls
                     | Failed e => handled calls e
                     end
          end
      end
  end.

End Sensor.
Import Sensor.

(** ** Concrete payloads and worlds *)

Module Scenarios.

(** The first window starts at 2024-01-08T00:00Z; the clock of the runs
    below shows 2024-01-10T00:00Z. *)
Definition t0 : datetime := utc 2024 1 8 0 0 0.
Definition now0 : datetime := utc 2024 1 10 0 0 0.

(** The hour [h] of the first window, [m] minutes and [s] seconds later. *)
Definition at_ (h m s : Z) : datetime :=
  Datetime.add t0 (hours h + (m * 60 + s) * 1000000).

Definition reading (ts : datetime) (v : option Z) : Reading :=
  {| timestamp := ts; value := v; isEstimated := false |}.

(** A window with granular data and some consumption. *)
Definition usable (vs : list Reading) : Verbrauch :=
  {| values := Some vs; optIn := Some (JBool true);
     consumptionMinimum := Some (JInt 1); consumptionMaximum := Some (JInt 500) |}.

(** A payload without the key ['values']. *)
Definition no_values : Verbrauch :=
  {| values := None; optIn := Some (JBool true);
     consumptionMinimum := Some (JInt 1); consumptionMaximum := Some (JInt 500) |}.

(** A Reading Source that answers [first] for the window at [t0], [second]
    for the window one day later, and fails elsewhere. *)
Definition source (first second : Verbrauch) (start : datetime) : result Verbrauch :=
  if utc_us start =? utc_us t0 then Ok first
  else if utc_us start =? utc_us (Datetime.add t0 (hours 24)) then Ok second
  else Raise RuntimeError.

(** Scenario C: five valid readings, then a window without ['values']. *)
Definition five_readings : list Reading :=
  [reading (at_ 0 0 0) (Some 500); reading (at_ 1 0 0) (Some 500);
   reading (at_ 2 0 0) (Some 500); reading (at_ 3 0 0) (Some 250);
   reading (at_ 4 0 0) (Some 250)].

Definition source_C : datetime -> result Verbrauch :=
  source (usable five_readings) no_values.

(** Scenario B: ten hourly readings of 500, then a day without values. *)
Definition ten_readings : list Reading :=
  map (fun h => reading (at_ h 0 0) (Some 500)) [0; 1; 2; 3; 4; 5; 6; 7; 8; 9].

Definition absent_day : list Reading :=
  map (fun h => reading (at_ (24 + h) 0 0) None)
      [0; 1; 2; 3; 4; 5; 6; 7; 8; 9; 10; 11; 12; 13; 14; 15; 16; 17; 18; 19; 20; 21; 22; 23].

Definition source_B : datetime -> result Verbrauch :=
  source (usable ten_readings) (usable absent_day).

(** The point that a reading of 500 at [ts] gives after [n] halves of a kWh. *)
Definition half_kwh (ts : datetime) (n : Z) : StatisticData :=
  {| stat_start := ts; stat_sum := DFinite (5 * n) (-1); stat_state := DFinite 5 (-1) |}.

(** A reading at 12:00:30, and Scenario D: a reading at 12:07. *)
Definition source_seconds : datetime -> result Verbrauch :=
  source (usable [reading (at_ 12 0 30) (Some 500)]) (usable []).

Definition readings_D : list Reading :=
  [reading (at_ 11 0 0) (Some 500); reading (at_ 12 7 0) (Some 500)].

Definition source_D : datetime -> result Verbrauch :=
  source (usable readings_D) (usable []).

(** The loop variables after a reading of 500 at hour [h] was the first
    point of the window. *)
Definition after_hour (h : Z) : Acc :=
  {| last_ts := at_ h 0 0; sum_ := DFinite 5 (-1);
     statistics := [half_kwh (at_ h 0 0) 1] |}.

(** A window with a late reading at 11:07 between those of 12:00 and 13:00. *)
Definition source_late_misaligned : datetime -> result Verbrauch :=
  source (usable [reading (at_ 12 0 0) (Some 500); reading (at_ 11 7 0) (Some 500);
                  reading (at_ 13 0 0) (Some 500)])
         (usable []).

(** raw / 1000 as an exact decimal. *)
Definition exact_kwh (raw : Z) : Decimal := DFinite raw (-3).

(** Two readings with the same timestamp; a first window that reaches into
    the second day; a negative reading. *)
Definition source_duplicate : datetime -> result Verbrauch :=
  source (usable [reading (at_ 0 0 0) (Some 500); reading (at_ 0 0 0) (Some 500)])
         (usable []).

Definition source_overlap : datetime -> result Verbrauch :=
  source (usable [reading (at_ 30 0 0) (Some 500)])
         (usable [reading (at_ 24 0 0) (Some 500)]).

Definition source_negative : datetime -> result Verbrauch :=
  source (usable [reading (at_ 0 0 0) (Some 500); reading (at_ 1 0 0) (Some (-250))])
         (usable []).

(** A recorder without any row for the sensor, met at 2024-01-10T00:00Z. *)
Definition cold_world : World :=
  {| self_id := "sensor.at0010000000000000001000000000001";
     last_inserted_stat := ∅;
     clock_today := utc_us now0;
     clock_delta_t := utc_us now0;
     clock_import := utc_us now0;
     login := Ok tt;
     get_zaehlpunkt := Ok ∅;
     get_consumption := source_C |}.

(** A recorder whose last row ends at [last_end]. *)
Definition warm_world (last_end : end_value) (zaehlpunkt : gmap string json) : World :=
  {| self_id := "sensor.at0010000000000000001000000000001";
     last_inserted_stat :=
       {[ "sensor.at0010000000000000001000000000001"
            := [{| row_end := last_end; row_sum := DFinite 0 0 |}] ]};
     clock_today := utc_us now0;
     clock_delta_t := utc_us now0;
     clock_import := utc_us now0;
     login := Ok tt;
     get_zaehlpunkt := Ok zaehlpunkt;
     get_consumption := source_C |}.

End Scenarios.

(** ** More of [utils.py] and of the sensor's API calls *)

Module UtilsMore.

(** A [list] or a [dict]: the two types [is_valid_access] knows. *)
Definition is_container (data : json) : bool :=
  match data with
  | JList _ | JDict _ => true
  | _ => false
  end.

(** The string holds no dot. *)
Definition dotless (s : string) : bool :=
  all_chars (fun c => negb (Ascii.eqb c ".")) s.

(** [a + "." + b] *)
Definition dotted (a b : string) : string := String.append a (String "." b).

End UtilsMore.
Import UtilsMore.

Module SensorMore.

(** The readings are aligned to the hour, each has a value, and their
    timestamps never go back, from [t] on. *)
Fixpoint in_order (t : datetime) (vs : list Reading) : Prop :=
  match vs with
  | [] => True
  | r :: vs' =>
      minute (timestamp r) = 0
      /\ utc_us t <= utc_us (timestamp r)
      /\ value r <> None
      /\ in_order (timestamp r) vs'
  end.

(** The start of the window that is fetched [i] windows after [start]. *)
Definition window_start (start : datetime) (i : nat) : datetime :=
  Datetime.add start (hours (24 * Z.of_nat i)).

End SensorMore.
Import SensorMore.

Module ScenariosMore.

(** A recorder that answers with two rows for the sensor; one that answers
    for another statistic only; one whose row ends at a naive datetime. *)
Definition two_rows_world : World :=
  {| self_id := "sensor.at0010000000000000001000000000001";
     last_inserted_stat :=
       {[ "sensor.at0010000000000000001000000000001"
            := [{| row_end := EndNumber (utc_us Scenarios.t0); row_sum := DFinite 0 0 |};
                {| row_end := EndNumber (utc_us Scenarios.t0); row_sum := DFinite 5 (-1) |}] ]};
     clock_today := utc_us Scenarios.now0;
     clock_delta_t := utc_us Scenarios.now0;
     clock_import := utc_us Scenarios.now0;
     login := Ok tt;
     get_zaehlpunkt := Ok ∅;
     get_consumption := Scenarios.source_C |}.

Definition other_id_world : World :=
  {| self_id := "sensor.at0010000000000000001000000000001";
     last_inserted_stat :=
       {[ "sensor.other"
            := [{| row_end := EndNumber (utc_us Scenarios.t0); row_sum := DFinite 0 0 |}] ]};
     clock_today := utc_us Scenarios.now0;
     clock_delta_t := utc_us Scenarios.now0;
     clock_import := utc_us Scenarios.now0;
     login := Ok tt;
     get_zaehlpunkt := Ok ∅;
     get_consumption := Scenarios.source_C |}.

End ScenariosMore.

(** ** [sensor.py]: the calls that shape the API's answers *)

Module SensorApi.

(** [x in c] for a [str] [x]: a key of a dict, an element of a list, a
    substring of a str; other values are not iterable. *)
Definition contains (x : string) (c : json) : result bool :=
  match c with
  | JDict m => Ok (bool_decide (is_Some (m !! x)))
  | JList l =>
      Ok (existsb (fun v => match v with JStr s => String.eqb s x | _ => false end) l)
  | JStr s => Ok (match String.index 0 x s with Some _ => true | None => false end)
  | _ => Raise TypeError
  end.

(** [len(c)] *)
Definition len (c : json) : result nat :=
  match c with
  | JDict m => Ok (size m)
  | JList l => Ok (List.length l)
  | JStr s => Ok (String.length s)
  | _ => Raise TypeError
  end.

Fixpoint chars (s : string) : list json :=
  match s with
  | EmptyString => []
  | String c s' => JStr (String c EmptyString) :: chars s'
  end.

(** [for z in c]: the elements of a list, the keys of a dict (in the order
    of the map, which is not Python's insertion order), the characters of
    a str. *)
Definition iterate (c : json) : result (list json) :=
  match c with
  | JList l => Ok l
  | JDict m => Ok (map (fun kv => JStr (fst kv)) (map_to_list m))
  | JStr s => Ok (chars s)
  | _ => Raise TypeError
  end.

(** [v == s] for a [str] [s]. *)
Definition eq_str (v : json) (s : string) : bool :=
  match v with
  | JStr s' => String.eqb s' s
  | _ => false
  end.

(** [[z for z in l if p(z)]] for a [p] that may raise. *)
Fixpoint filterM {A} (p : A -> result bool) (l : list A) : result (list A) :=
  match l with
  | [] => Ok []
  | x :: l' =>
      Py.bind (p x) (fun b : bool =>
      Py.bind (filterM p l') (fun rest => Ok (if b then x :: rest else rest)))
  end.

Section Calls.

(** The attribute mappings of [const.py]. *)
Variable ATTRS_ZAEHLPUNKTE_CALL ATTRS_VERBRAUCH_CALL ATTRS_WELCOME_CALL : list (string * string).

(** [get_zaehlpunkt], from the answer [zps] of [smartmeter.zaehlpunkte];
    [None] stands for Python's [None]. *)
Definition get_zaehlpunkt (zaehlpunkt : string) (zps : json)
  : result (option (gmap string json)) :=
  Py.bind (contains "Exception" zps) (fun exception : bool =>
  if exception then Raise RuntimeError
  else
    Py.bind (if is_None zps then Ok true
             else Py.bind (len zps) (fun n => Ok (Nat.eqb n 0))) (fun empty : bool =>
    if empty then Raise RuntimeError
    else
      Py.bind (getitem zps (AInt 0)) (fun first =>
      Py.bind (getitem first (AStr "zaehlpunkte")) (fun zaehlpunkte =>
      Py.bind (iterate zaehlpunkte) (fun items =>
      Py.bind (filterM (fun z =>
                          Py.bind (getitem z (AStr "zaehlpunktnummer")) (fun nr =>
                          Ok (eq_str nr zaehlpunkt))) items) (fun zp =>
      match zp with
      | [] => Raise RuntimeError
      | z :: _ =>
          if (0 <? List.length zp)%nat
          then Ok (Some (translate_dict z ATTRS_ZAEHLPUNKTE_CALL))
          else Ok None
      end)))))).

(** [get_consumption], from the answer of [smartmeter.verbrauch]. *)
Definition get_consumption (response : json) : result (gmap string json) :=
  Py.bind (contains "Exception" response) (fun exception : bool =>
  if exception then Raise RuntimeError
  else Ok (translate_dict response ATTRS_VERBRAUCH_CALL)).

(** [get_welcome], from the answer of [smartmeter.welcome]. *)
Definition get_welcome (response : json) : result (gmap string json) :=
  Py.bind (contains "Exception" response) (fun exception : bool =>
  if exception then Raise RuntimeError
  else Ok (translate_dict response ATTRS_WELCOME_CALL)).

End Calls.

(** The zaehlpunkt entry is a dict whose number is [zaehlpunkt]. *)
Definition has_number (zaehlpunkt : string) (z : json) : bool :=
  match z with
  | JDict m =>
      match m !! "zaehlpunktnummer" with
      | Some nr => eq_str nr zaehlpunkt
      | None => false
      end
  | _ => false
  end.

(** The entry is a dict that has a number at all. *)
Definition numbered (z : json) : Prop :=
  exists m nr, z = JDict m /\ m !! "zaehlpunktnummer" = Some nr.

End SensorApi.

(** * Properties *)

(** ** [utils.py]: [dict_path] and [translate_dict] *)

Section UtilsFacts.

Lemma decimal_value_nonneg (s : string) (acc : Z) :
  0 <= acc -> all_chars ascii_digit s = true -> 0 <= decimal_value acc s.
Proof.
  revert acc. induction s as [|c s IH]; intros acc Hacc Hd; [exact Hacc|].
  cbn [all_chars decimal_value] in *. apply andb_prop in Hd as [Hc Hs].
  apply IH; [|exact Hs]. unfold ascii_digit in Hc. lia.
Qed.

Lemma strint_from_strint (s : string) (a : accessor) :
  strint s = Ok a -> from_strint a.
Proof.
  unfold strint, int_of_str. destruct (isdigit s).
  - destruct (all_chars ascii_digit s) eqn:Hd; cbn; [|discriminate].
    intros [= <-]. cbn. now apply decimal_value_nonneg.
  - intros [= <-]. exact I.
Qed.

Lemma mapM_strint_from_strint (l : list string) (accs : list accessor) :
  mapM strint l = Ok accs -> Forall from_strint accs.
Proof.
  revert accs. induction l as [|s l IH]; intros accs.
  - intros [= <-]. constructor.
  - cbn [mapM]. destruct (strint s) eqn:Hs; cbn [Py.bind]; [|discriminate].
    destruct (mapM strint l); cbn [Py.bind]; [|discriminate].
    intros [= <-]. constructor; [eapply strint_from_strint, Hs|now apply IH].
Qed.

Lemma valid_access_getitem (data : json) (a : accessor) :
  from_strint a -> is_valid_access data a = true -> exists v, getitem data a = Ok v.
Proof.
  destruct a as [n|s], data as [| | | | |l|m]; simpl; try discriminate.
  - intros Hn H. apply Z.ltb_lt in H.
    assert (E : (n <? 0) = false) by lia. rewrite ?E.
    destruct (lookup_lt_is_Some_2 l (Z.to_nat n)) as [v Hv]; [lia|].
    rewrite Hv, ?E. eauto.
  - intros _ H. apply bool_decide_eq_true in H. destruct H as [v Hv].
    rewrite Hv. eauto.
Qed.

Lemma dict_path_step_ok (acc : json) (a : accessor) :
  from_strint a ->
  exists v, dict_path_step acc a = Ok v
            /\ (v = JNull \/ getitem acc a = Ok v).
Proof.
  intros Ha. unfold dict_path_step. destruct (is_valid_access acc a) eqn:Hv.
  - destruct (valid_access_getitem _ _ Ha Hv) as [v Hg]. exists v. rewrite Hg. auto.
  - exists JNull. auto.
Qed.

Lemma reduce_from_None (accs : list accessor) :
  reduceM dict_path_step accs JNull = Ok JNull.
Proof.
  induction accs as [|a accs IH]; [reflexivity|].
  simpl. destruct a; exact IH.
Qed.

(** The [reduce] of [dict_path] never raises, and ends on [None] or on the
    value the accessors address. *)
Lemma reduce_dict_path_step (accs : list accessor) (d : json) :
  Forall from_strint accs ->
  exists v, reduceM dict_path_step accs d = Ok v
            /\ (v = JNull \/ subscript_all accs d = Ok v).
Proof.
  intros Hall. revert d. induction Hall as [|a accs Ha Hall IH]; intros d.
  - exists d. split; [reflexivity|]. right. reflexivity.
  - destruct (dict_path_step_ok d a Ha) as (v1 & Hs & Hv1).
    cbn [reduceM]. rewrite Hs. cbn [Py.bind].
    destruct Hv1 as [->|Hg].
    + exists JNull. split; [apply reduce_from_None|]. now left.
    + destruct (IH v1) as (v & Hr & Hv). exists v. split; [exact Hr|].
      destruct Hv as [->|Hsub]; [now left|]. right.
      unfold subscript_all in *. cbn [reduceM]. rewrite Hg. exact Hsub.
Qed.

Lemma strint_only_ValueError (s : string) (e : exn) :
  strint s = Raise e -> e = ValueError.
Proof.
  unfold strint, int_of_str. destruct (isdigit s); [|discriminate].
  destruct (all_chars ascii_digit s); cbn; congruence.
Qed.

Lemma mapM_strint_only_ValueError (l : list string) (e : exn) :
  mapM strint l = Raise e -> e = ValueError.
Proof.
  induction l as [|s l IH]; [discriminate|].
  cbn [mapM]. destruct (strint s) eqn:Hs; cbn [Py.bind].
  - destruct (mapM strint l); cbn [Py.bind]; [discriminate|].
    intros [= <-]. now apply IH.
  - intros [= <-]. eapply strint_only_ValueError, Hs.
Qed.

Lemma translate_dict_fold_lookup (d : json) (attrs : list (string * string))
    (m : gmap string json) (k : string) :
  is_Some (fold_left
             (fun (result : gmap string json) '(src, dest) =>
                let value := dict_path src d in
                if is_None value then result else <[dest := value]> result)
             attrs m !! k)
  <-> is_Some (m !! k)
      \/ exists src, (src, k) ∈ attrs /\ dict_path src d <> JNull.
Proof.
  revert m. induction attrs as [|[src dest] attrs IH]; intros m.
  - cbn. split; [auto|]. intros [H|(src & Hin & _)]; [exact H|].
    now apply elem_of_nil in Hin.
  - cbn [fold_left]. rewrite IH. clear IH. cbv zeta.
    destruct (is_None (dict_path src d)) eqn:Hn.
    + assert (Hnull : dict_path src d = JNull)
        by (destruct (dict_path src d); try discriminate; reflexivity).
      split.
      * intros [H|(s & Hin & Hs)]; [now left|].
        right. exists s. split; [apply elem_of_cons; now right|exact Hs].
      * intros [H|(s & Hin & Hs)]; [now left|].
        apply elem_of_cons in Hin as [[= -> ->]|Hin]; [congruence|].
        right. eauto.
    + assert (Hnn : dict_path src d <> JNull)
        by (intros E; rewrite E in Hn; discriminate).
      split.
      * intros [H|(s & Hin & Hs)].
        -- destruct (decide (dest = k)) as [->|Hne].
           ++ right. exists src. split; [apply elem_of_cons; now left|exact Hnn].
           ++ rewrite lookup_insert_ne in H by exact Hne. now left.
        -- right. exists s. split; [apply elem_of_cons; now right|exact Hs].
      * intros [H|(s & Hin & Hs)].
        -- left. destruct (decide (dest = k)) as [->|Hne].
           ++ rewrite lookup_insert_eq. eauto.
           ++ now rewrite lookup_insert_ne by exact Hne.
        -- apply elem_of_cons in Hin as [[= -> ->]|Hin].
           ++ left. rewrite lookup_insert_eq. eauto.
           ++ right. eauto.
Qed.

End UtilsFacts.

(** C10.  [dict_path] is total: the body of its [try] can only raise the
    [ValueError] of [int()], which the handler turns into [None]; the
    [reduce] itself never raises, because an access that [is_valid_access]
    rejects (index out of range, key missing, accessor of the wrong type)
    gives [None]; the result is [None] or the value that the accessors
    address by plain subscription.  [translate_dict] has exactly the
    destination keys of which a source path resolves to a value that is not
    [None]. *)
Theorem dict_path_total_translate_dict_keys :
  (forall path d e, dict_path_try path d = Raise e -> e = ValueError)
  /\ (forall acc a, is_valid_access acc a = false -> dict_path_step acc a = Ok JNull)
  /\ (forall path d accs,
        mapM strint (split_dot path) = Ok accs ->
        exists v, reduceM dict_path_step accs d = Ok v)
  /\ (forall path d,
        dict_path path d = JNull
        \/ exists accs, mapM strint (split_dot path) = Ok accs
                        /\ subscript_all accs d = Ok (dict_path path d))
  /\ (forall d attrs k,
        is_Some (translate_dict d attrs !! k)
        <-> exists src, (src, k) ∈ attrs /\ dict_path src d <> JNull).
Proof.
  split; [|split; [|split; [|split]]].
  - intros path d e. unfold dict_path_try.
    destruct (mapM strint (split_dot path)) as [accs|e'] eqn:Hm; cbn.
    + destruct (reduce_dict_path_step accs d) as (v & Hr & _);
        [eapply mapM_strint_from_strint, Hm|]. rewrite Hr. discriminate.
    + intros [= <-]. eapply mapM_strint_only_ValueError, Hm.
  - intros acc a H. unfold dict_path_step. now rewrite H.
  - intros path d accs Hm.
    destruct (reduce_dict_path_step accs d) as (v & Hr & _);
      [eapply mapM_strint_from_strint, Hm|]. eauto.
  - intros path d. unfold dict_path, dict_path_try.
    destruct (mapM strint (split_dot path)) as [accs|e'] eqn:Hm; cbn.
    + destruct (reduce_dict_path_step accs d) as (v & Hr & Hv);
        [eapply mapM_strint_from_strint, Hm|]. rewrite Hr.
      destruct Hv as [->|Hs]; [now left|]. right. eauto.
    + left. now destruct e'.
  - intros d attrs k. unfold translate_dict.
    rewrite translate_dict_fold_lookup. rewrite lookup_empty.
    split; [intros [[? [=]]|H]; exact H|auto].
Qed.

(** ** [_import_statistics]: the loop and its relation *)

Section LoopFacts.

Variable get_consumption : datetime -> result Verbrauch.

(** Every result of the loop function is a run of the relation. *)
Lemma import_loop_sound (fuel : nat) (now start : datetime) (sum_ : Decimal)
    (statistics : list StatisticData) (fetched0 : list datetime) (run : Run) :
  import_loop get_consumption fuel now start sum_ statistics fetched0 = Some run ->
  exists calls,
    fetched run = fetched0 ++ calls
    /\ loop_run get_consumption now start sum_ statistics calls (result_of run).
Proof.
  revert start sum_ statistics fetched0.
  induction fuel as [|fuel IH]; intros start sum_ statistics fetched0; [discriminate|].
  cbn [import_loop].
  destruct (Datetime.ltb start now) eqn:Hlt.
  2:{ intros [= <-]. exists []. cbn. rewrite app_nil_r.
      split; [reflexivity|]. now constructor. }
  destruct (get_consumption start) as [verbrauch|e] eqn:Hget.
  2:{ intros [= <-]. exists [start]. split; [reflexivity|].
      now apply run_fetch_raises. }
  destruct (values verbrauch) as [vs|] eqn:Hvs.
  2:{ intros [= <-]. exists [start]. split; [reflexivity|].
      now apply run_no_values with verbrauch. }
  assert (Hskip : forall calls o,
             skipped verbrauch = true ->
             loop_run get_consumption now (Datetime.add start (hours 24)) sum_ statistics calls o ->
             loop_run get_consumption now start sum_ statistics (start :: calls) o)
    by (intros; now apply run_skip with verbrauch vs).
  destruct (negb (truthy (dict_get (optIn verbrauch)))) eqn:Hopt.
  { intros H. apply IH in H as (calls & Hf & Hrun).
    exists (start :: calls). rewrite Hf, <- app_assoc. split; [reflexivity|].
    apply Hskip; [|exact Hrun]. unfold skipped. now rewrite Hopt. }
  destruct (eq_0 (dict_get (consumptionMinimum verbrauch))
            && eq_0 (dict_get (consumptionMaximum verbrauch))) eqn:Hzero.
  { intros H. apply IH in H as (calls & Hf & Hrun).
    exists (start :: calls). rewrite Hf, <- app_assoc. split; [reflexivity|].
    apply Hskip; [|exact Hrun]. unfold skipped. now rewrite Hopt, Hzero. }
  assert (Hns : skipped verbrauch = false) by (unfold skipped; now rewrite Hopt, Hzero).
  destruct (process_values vs _) as [[st|]|e] eqn:Hpv.
  - intros H. apply IH in H as (calls & Hf & Hrun).
    exists (start :: calls). rewrite Hf, <- app_assoc. split; [reflexivity|].
    now apply run_values_next with verbrauch vs st.
  - intros [= <-]. exists [start]. split; [reflexivity|].
    now apply run_values_return with verbrauch vs.
  - intros [= <-]. exists [start]. split; [reflexivity|].
    now apply run_values_raise with verbrauch vs.
Qed.

(** The loop ends within [loop_fuel] tests of its condition: [start]
    grows by 24 hours in each turn. *)
Lemma import_loop_total (fuel : nat) (now start : datetime) (sum_ : Decimal)
    (statistics : list StatisticData) (fetched0 : list datetime) :
  (loop_fuel now start <= fuel)%nat ->
  exists run, import_loop get_consumption fuel now start sum_ statistics fetched0 = Some run.
Proof.
  revert start sum_ statistics fetched0.
  induction fuel as [|fuel IH]; intros start sum_ statistics fetched0 Hfuel.
  { unfold loop_fuel in Hfuel. lia. }
  cbn [import_loop].
  destruct (Datetime.ltb start now) eqn:Hlt; [|eauto].
  assert (Hnext : (loop_fuel now (Datetime.add start (hours 24)) <= fuel)%nat).
  { unfold loop_fuel, Datetime.ltb, Datetime.add, hours in *. cbn [utc_us] in *.
    apply Z.ltb_lt in Hlt.
    replace (utc_us now - utc_us start + 24 * 3600000000 - 1)
      with (utc_us now - (utc_us start + 24 * 3600000000) + 24 * 3600000000 - 1
            + 1 * (24 * 3600000000)) in Hfuel by lia.
    rewrite Z.div_add in Hfuel by lia.
    assert (0 <= (utc_us now - (utc_us start + 24 * 3600000000) + 24 * 3600000000 - 1)
                 / (24 * 3600000000)) by (apply Z.div_pos; lia).
    lia. }
  destruct (get_consumption start) as [verbrauch|e]; [|eauto].
  destruct (values verbrauch) as [vs|]; [|eauto].
  destruct (negb (truthy (dict_get (optIn verbrauch)))); [now apply IH|].
  destruct (eq_0 _ && eq_0 _); [now apply IH|].
  destruct (process_values vs _) as [[st|]|e]; [now apply IH|eauto|eauto].
Qed.

(** [_import_statistics] always ends, and ends as a run of the loop from
    the hour of [start] up to the hour of [now]. *)
Lemma import_statistics_run (now start : datetime) (sum_ : Decimal) :
  exists run,
    _import_statistics get_consumption now (Aware start) sum_ = Some run
    /\ loop_run get_consumption (replace_minute_second_microsecond_0 now)
         (replace_minute_second_microsecond_0 start) sum_ [] (fetched run) (result_of run).
Proof.
  unfold _import_statistics.
  destruct (import_loop_total
              (loop_fuel (replace_minute_second_microsecond_0 now)
                         (replace_minute_second_microsecond_0 start))
              (replace_minute_second_microsecond_0 now)
              (replace_minute_second_microsecond_0 start) sum_ [] []) as [run Hrun];
    [lia|].
  exists run. split; [exact Hrun|].
  apply import_loop_sound in Hrun as (calls & Hf & Hr). cbn in Hf. now rewrite Hf.
Qed.

End LoopFacts.

(** ** The run aborts on a window without ['values'] *)

Lemma loop_run_no_values (gc : datetime -> result Verbrauch) (now start : datetime)
    (sum_ : Decimal) (statistics : list StatisticData) (calls : list datetime) (o : outcome) :
  loop_run gc now start sum_ statistics calls o ->
  forall s verbrauch,
    s ∈ calls -> gc s = Ok verbrauch -> values verbrauch = None -> o = Aborted.
Proof.
  induction 1 as [start sum_ statistics Hlt
                 |start sum_ statistics e Hlt Hget
                 |start sum_ statistics v0 Hlt Hget Hvs
                 |start sum_ statistics v0 vs calls o Hlt Hget Hvs Hskip Hrun IH
                 |start sum_ statistics v0 vs e Hlt Hget Hvs Hskip Hpv
                 |start sum_ statistics v0 vs Hlt Hget Hvs Hskip Hpv
                 |start sum_ statistics v0 vs st calls o Hlt Hget Hvs Hskip Hpv Hrun IH];
    intros s verbrauch Hin Hs Hnone.
  - now apply elem_of_nil in Hin.
  - apply list_elem_of_singleton in Hin as ->. congruence.
  - reflexivity.
  - apply elem_of_cons in Hin as [->|Hin]; [congruence|]. eapply IH; eauto.
  - apply list_elem_of_singleton in Hin as ->. congruence.
  - reflexivity.
  - apply elem_of_cons in Hin as [->|Hin]; [congruence|]. eapply IH; eauto.
Qed.

(** C1.  Every call of [_import_statistics] ends; when the payload of any
    window it fetched has no ['values'] key, it ends by the early [return]:
    [async_import_statistics] is not called, whatever the earlier windows of
    the run had added to [statistics]. *)
Theorem missing_values_abort_the_run
    (gc : datetime -> result Verbrauch) (now : datetime) (start : pydatetime) (sum_ : Decimal) :
  exists run,
    _import_statistics gc now start sum_ = Some run
    /\ forall s verbrauch,
         s ∈ fetched run -> gc s = Ok verbrauch -> values verbrauch = None ->
         result_of run = Aborted.
Proof.
  destruct start as [start|wall].
  - destruct (import_statistics_run gc now start sum_) as (run & Hrun & Hloop).
    exists run. split; [exact Hrun|].
    intros s verbrauch. eapply loop_run_no_values, Hloop.
  - eexists. split; [reflexivity|]. cbn. intros s verbrauch Hin.
    now apply elem_of_nil in Hin.
Qed.

(** Scenario C: the first window gives five points and the sum 2.0, the
    second has no ['values']: nothing is imported. *)
Lemma scenario_C_commits_nothing :
  process_values Scenarios.five_readings
    {| last_ts := Scenarios.t0; sum_ := DFinite 0 0; statistics := [] |}
  = Ok (Next {| last_ts := Scenarios.at_ 4 0 0; sum_ := DFinite 200 (-2);
                statistics :=
                  [ {| stat_start := Scenarios.at_ 0 0 0; stat_sum := DFinite 5 (-1); stat_state := DFinite 5 (-1) |};
                    {| stat_start := Scenarios.at_ 1 0 0; stat_sum := DFinite 10 (-1); stat_state := DFinite 5 (-1) |};
                    {| stat_start := Scenarios.at_ 2 0 0; stat_sum := DFinite 15 (-1); stat_state := DFinite 5 (-1) |};
                    {| stat_start := Scenarios.at_ 3 0 0; stat_sum := DFinite 175 (-2); stat_state := DFinite 25 (-2) |};
                    {| stat_start := Scenarios.at_ 4 0 0; stat_sum := DFinite 200 (-2); stat_state := DFinite 25 (-2) |} ] |})
  /\ exists run,
       _import_statistics Scenarios.source_C Scenarios.now0 (Aware Scenarios.t0) (DFinite 0 0)
       = Some run
       /\ fetched run = [Scenarios.t0; Datetime.add Scenarios.t0 (hours 24)]
       /\ result_of run = Aborted.
Proof.
  split; [vm_compute; reflexivity|].
  destruct (missing_values_abort_the_run
              Scenarios.source_C Scenarios.now0 (Aware Scenarios.t0) (DFinite 0 0))
    as (run & Hrun & Habort).
  exists run. split; [exact Hrun|].
  assert (Hf : fetched run = [Scenarios.t0; Datetime.add Scenarios.t0 (hours 24)]).
  { vm_compute in Hrun. injection Hrun as <-. reflexivity. }
  split; [exact Hf|].
  apply (Habort (Datetime.add Scenarios.t0 (hours 24)) Scenarios.no_values).
  - rewrite Hf. apply elem_of_cons. right. apply elem_of_cons. now left.
  - reflexivity.
  - reflexivity.
Defined.

(** ** [async_update]: the resume decision *)

(** A path segment made of the superscript two: a digit for [isdigit], not
    for [int], whose [ValueError] the handler of [dict_path] absorbs. *)
Lemma dict_path_superscript_segment :
  strint (String (ascii_of_nat 178) EmptyString) = Raise ValueError
  /\ dict_path (String (ascii_of_nat 178) EmptyString)
       (JDict {[ String (ascii_of_nat 178) EmptyString := JInt 1 ]}) = JNull
  /\ dict_path "a.1" (JDict {[ "a" := JList [JInt 7; JStr "x"] ]}) = JStr "x"
  /\ dict_path "a.2" (JDict {[ "a" := JList [JInt 7; JStr "x"] ]}) = JNull
  /\ dict_path "a.b" (JDict {[ "a" := JList [JInt 7; JStr "x"] ]}) = JNull
  /\ dict_path "0" (JDict {[ "0" := JInt 7 ]}) = JNull.
Proof. vm_compute. repeat split. Qed.

(** C4.  With no row in the recorder, [async_update] reaches
    [today(timezone.utc)]; [utils.today] takes no parameter, so the call
    raises [TypeError], which leaves [async_update] before any call of the
    API: no start is computed and nothing is imported. *)
Theorem cold_start_raises_TypeError (w : World) :
  last_inserted_stat w = ∅ \/ last_inserted_stat w !! self_id w = Some [] ->
  resume_decision w = Raise TypeError
  /\ async_update w = Some {| available := true; calls := []; imported := None;
                              raised := Some TypeError |}.
Proof.
  intros Hcold. assert (Hr : resume_decision w = Raise TypeError).
  { unfold resume_decision. destruct Hcold as [Hempty|Hrows].
    - rewrite Hempty. reflexivity.
    - rewrite Hrows. destruct (Nat.eqb (size (last_inserted_stat w)) 0); reflexivity. }
  split; [exact Hr|]. unfold async_update. rewrite Hr. reflexivity.
Qed.

(** Scenario A, as the code runs it: no row, the clock at 2024-01-10T00:00Z. *)
Lemma cold_start_2024_01_10 :
  last_inserted_stat Scenarios.cold_world = ∅
  /\ resume_decision Scenarios.cold_world = Raise TypeError
  /\ async_update Scenarios.cold_world
     = Some {| available := true; calls := []; imported := None; raised := Some TypeError |}.
Proof.
  split; [reflexivity|].
  apply (cold_start_raises_TypeError Scenarios.cold_world). left. reflexivity.
Defined.

(** What [today] itself returns, and the start that two days earlier gives:
    a naive datetime, which [_import_statistics] refuses. *)
Lemma today_is_naive (wall_us : Z) (gc : datetime -> result Verbrauch) (now : datetime)
    (sum_ : Decimal) :
  call_today [] wall_us = Ok (Naive (wall_us - wall_us mod 86400000000))
  /\ _import_statistics gc now (py_add (today wall_us) (- hours 48)) sum_
     = Some {| fetched := []; result_of := Failed ValueError |}.
Proof. split; reflexivity. Qed.

Lemma replace_microsecond_0_utc (d : datetime) :
  utc_us (replace_microsecond_0 d) = 1000000 * (utc_us d / 1000000).
Proof.
  unfold replace_microsecond_0, local_us. cbn [utc_us].
  rewrite Z.mod_add by lia.
  pose proof (Z.div_mod (utc_us d) 1000000). lia.
Qed.

(** C5.  When the recorder returns one row for the sensor, its end is an
    aware datetime, and now − end ≤ 24 h, [async_update] returns at the
    check of [delta_t]: no call of the API is made, nothing is imported,
    no exception is raised. *)
Theorem within_24h_no_api_call (w : World) (row : StatRow) (last_end : datetime) :
  last_inserted_stat w = {[ self_id w := [row] ]} ->
  coerce_end (row_end row) = Some (Aware last_end) ->
  clock_delta_t w - utc_us last_end <= hours 24 ->
  resume_decision w = Ok Leave
  /\ async_update w = Some {| available := true; calls := []; imported := None;
                              raised := None |}.
Proof.
  intros Hstat Hend Hdelta.
  assert (Hr : resume_decision w = Ok Leave).
  { unfold resume_decision. rewrite Hstat, map_size_singleton, lookup_singleton_eq.
    cbn. rewrite Hend.
    unfold Datetime.sub. rewrite !replace_microsecond_0_utc. cbn [now_utc utc_us].
    assert (Hle : 1000000 * (clock_delta_t w / 1000000)
                  - 1000000 * (utc_us last_end / 1000000) <= hours 24).
    { unfold hours in *.
      assert (clock_delta_t w / 1000000 <= (utc_us last_end + 86400 * 1000000) / 1000000)
        by (apply Z.div_le_mono; lia).
      rewrite Z.div_add in H by lia. lia. }
    apply Z.leb_le in Hle. now rewrite Hle. }
  split; [exact Hr|]. unfold async_update. now rewrite Hr.
Qed.

(** The last row ends exactly 24 hours before now: the update leaves. *)
Lemma within_24h_example :
  async_update
    (Scenarios.warm_world (EndNumber (utc_us (utc 2024 1 9 0 0 0))) ∅)
  = Some {| available := true; calls := []; imported := None; raised := None |}.
Proof.
  apply (within_24h_no_api_call
           (Scenarios.warm_world (EndNumber (utc_us (utc 2024 1 9 0 0 0))) ∅)
           {| row_end := EndNumber (utc_us (utc 2024 1 9 0 0 0)); row_sum := DFinite 0 0 |}
           (utc 2024 1 9 0 0 0)).
  - reflexivity.
  - reflexivity.
  - vm_compute. discriminate.
Defined.

(** ** [is_active] and the availability of the sensor *)

Lemma py_or_falsy (x y : json) :
  truthy (py_or x y) = false <-> truthy x = false /\ truthy y = false.
Proof.
  unfold py_or. destruct (truthy x) eqn:Hx.
  - rewrite Hx. split; [discriminate|now intros [? _]].
  - tauto.
Qed.

Lemma is_active_falsy (zp : gmap string json) :
  truthy (is_active zp) = false
  <-> (exists a, zp !! "active" = Some a /\ truthy a = false)
      /\ (exists r, zp !! "smartMeterReady" = Some r /\ truthy r = false).
Proof.
  unfold is_active. rewrite py_or_falsy.
  destruct (zp !! "active") as [a|], (zp !! "smartMeterReady") as [r|]; cbn.
  - split.
    + intros [Ha Hr]. split; eexists; split; [reflexivity|exact Ha|reflexivity|exact Hr].
    + intros [(a' & [= <-] & Ha) (r' & [= <-] & Hr)]. auto.
  - split; [intros [_ [=]]|intros [_ (r' & [=] & _)]].
  - split; [intros [[=] _]|intros [(a' & [=] & _) _]].
  - split; [intros [[=] _]|intros [(a' & [=] & _) _]].
Qed.

Lemma import_statistics_ends (gc : datetime -> result Verbrauch) (now : datetime)
    (start : pydatetime) (sum_ : Decimal) :
  exists run, _import_statistics gc now start sum_ = Some run.
Proof.
  destruct start as [start|wall]; [|eexists; reflexivity].
  destruct (import_statistics_run gc now start sum_) as (run & Hrun & _). eauto.
Qed.

(** C9.  [is_active] is falsy exactly when the response has both an
    ["active"] entry and a ["smartMeterReady"] entry and both are falsy; for
    entries that are booleans that is: both present and [False], and in
    every other case the result is [True].  In [async_update], once login
    and the zaehlpunkt lookup succeeded, a falsy result makes the sensor
    unavailable and returns before any consumption is fetched; a truthy
    one goes on to [_import_statistics]. *)
Theorem is_active_only_false_when_both_false :
  (forall zp : gmap string json,
     truthy (is_active zp) = false
     <-> (exists a, zp !! "active" = Some a /\ truthy a = false)
         /\ (exists r, zp !! "smartMeterReady" = Some r /\ truthy r = false))
  /\ (forall zp : gmap string json,
        (forall v, zp !! "active" = Some v -> exists b, v = JBool b) ->
        (forall v, zp !! "smartMeterReady" = Some v -> exists b, v = JBool b) ->
        (is_active zp = JBool false
         <-> zp !! "active" = Some (JBool false)
             /\ zp !! "smartMeterReady" = Some (JBool false))
        /\ (is_active zp = JBool false \/ is_active zp = JBool true))
  /\ (forall (w : World) start _sum zp,
        resume_decision w = Ok (Proceed start _sum) ->
        login w = Ok tt ->
        get_zaehlpunkt w = Ok zp ->
        if truthy (is_active zp)
        then exists run,
               _import_statistics (get_consumption w) (now_utc (clock_import w)) start _sum
               = Some run
               /\ exists u, async_update w = Some u
                    /\ calls u = [CallLogin; CallZaehlpunkte] ++ map CallVerbrauch (fetched run)
                    /\ (forall stats, result_of run = Imported stats ->
                                      imported u = Some stats /\ available u = true)
        else async_update w
             = Some {| available := false; calls := [CallLogin; CallZaehlpunkte];
                       imported := None; raised := None |}).
Proof.
  split; [exact is_active_falsy|split].
  - intros zp Ha Hr. unfold is_active, py_or.
    destruct (zp !! "active") as [a|] eqn:Ea.
    2:{ cbn. split; [|now right]. split; [discriminate|now intros [[=] _]]. }
    destruct (Ha a eq_refl) as [ba ->]. destruct ba; cbn.
    { split; [|now right]. split; [discriminate|now intros [[=] _]]. }
    destruct (zp !! "smartMeterReady") as [r|] eqn:Er.
    2:{ split; [|now right]. split; [discriminate|now intros [_ [=]]]. }
    destruct (Hr r eq_refl) as [br ->]. destruct br.
    + split; [|now right]. split; [discriminate|now intros [_ [=]]].
    + split; [|now left]. split; auto.
  - intros w start _sum zp Hres Hlogin Hzp. unfold async_update.
    rewrite Hres, Hlogin, Hzp.
    destruct (truthy (is_active zp)); cbn [negb]; [|reflexivity].
    destruct (import_statistics_ends (get_consumption w) (now_utc (clock_import w)) start _sum)
      as [run Hrun].
    exists run. split; [exact Hrun|]. rewrite Hrun. cbn.
    eexists. split; [reflexivity|].
    destruct (result_of run) as [stats|  |e]; cbn.
    + split; [reflexivity|]. intros ? [= <-]. auto.
    + split; [reflexivity|]. discriminate.
    + split; [now destruct e|]. discriminate.
Qed.

(** A meter that reports [active = False] and [smartMeterReady = False]:
    the sensor becomes unavailable and no consumption is fetched. *)
Lemma inactive_meter_is_unavailable :
  is_active (<["active" := JBool false]> (<["smartMeterReady" := JBool false]> ∅)) = JBool false
  /\ is_active (<["active" := JBool false]> (<["smartMeterReady" := JBool true]> ∅)) = JBool true
  /\ is_active (<["active" := JBool false]> ∅) = JBool true
  /\ async_update
       (Scenarios.warm_world (EndNumber (utc_us Scenarios.t0))
          (<["active" := JBool false]> (<["smartMeterReady" := JBool false]> ∅)))
     = Some {| available := false; calls := [CallLogin; CallZaehlpunkte];
               imported := None; raised := None |}.
Proof.
  split; [reflexivity|split; [reflexivity|split; [reflexivity|]]].
  exact (proj2 (proj2 is_active_only_false_when_both_false)
           (Scenarios.warm_world (EndNumber (utc_us Scenarios.t0))
              (<["active" := JBool false]> (<["smartMeterReady" := JBool false]> ∅)))
           (Aware Scenarios.t0) (DFinite 0 0)
           (<["active" := JBool false]> (<["smartMeterReady" := JBool false]> ∅))
           eq_refl eq_refl eq_refl).
Defined.

(** ** The loop over the readings of one window *)

Lemma nondecreasing_from_weaken (t t' : datetime) (l : list StatisticData) :
  utc_us t <= utc_us t' -> nondecreasing_from t' l -> nondecreasing_from t l.
Proof. destruct l as [|p l]; cbn; [tauto|]. intros ? [? ?]. split; [lia|assumption]. Qed.

Lemma last_sum_cons (prev : Decimal) (p : StatisticData) (l : list StatisticData) :
  last_sum prev (p :: l) = last_sum (stat_sum p) l.
Proof.
  unfold last_sum. destruct l as [|q l]; [reflexivity|].
  rewrite last_cons_cons. destruct (last (q :: l)) eqn:E; [reflexivity|].
  now apply last_None in E.
Qed.

Lemma sum_chain_app (prev : Decimal) (l1 l2 : list StatisticData) :
  sum_chain prev (l1 ++ l2) <-> sum_chain prev l1 /\ sum_chain (last_sum prev l1) l2.
Proof.
  revert prev. induction l1 as [|p l1 IH]; intros prev.
  - cbn. tauto.
  - cbn [app sum_chain]. rewrite IH, last_sum_cons. tauto.
Qed.

Lemma last_sum_app (prev : Decimal) (l1 l2 : list StatisticData) :
  last_sum prev (l1 ++ l2) = last_sum (last_sum prev l1) l2.
Proof.
  revert prev. induction l1 as [|p l1 IH]; intros prev; [reflexivity|].
  cbn [app]. now rewrite !last_sum_cons.
Qed.

Lemma from_reading_cons (v : Reading) (vs : list Reading) (p : StatisticData) :
  from_reading vs p -> from_reading (v :: vs) p.
Proof.
  intros (r & raw & Hin & H). exists r, raw. split; [|exact H].
  apply elem_of_cons. now right.
Qed.

(** What a window that is read to its end adds to [statistics]. *)
Lemma process_values_next (vs : list Reading) (st st' : Acc) :
  process_values vs st = Ok (Next st') ->
  exists new,
    statistics st' = statistics st ++ new
    /\ sum_ st' = last_sum (sum_ st) new
    /\ sum_chain (sum_ st) new
    /\ nondecreasing_from (last_ts st) new
    /\ Forall (fun p => minute (stat_start p) = 0) new
    /\ Forall (from_reading vs) new
    /\ Forall (fun r => minute (timestamp r) = 0) vs.
Proof.
  revert st. induction vs as [|v vs IH]; intros st.
  - intros [= <-]. exists []. rewrite app_nil_r. cbn. repeat split; constructor.
  - cbn [process_values]. unfold process_reading.
    destruct (minute (timestamp v) =? 0) eqn:Hmin; cbn [negb]; [|discriminate].
    apply Z.eqb_eq in Hmin.
    destruct (Datetime.ltb (timestamp v) (last_ts st)) eqn:Hlt; cbn.
    { intros H. apply IH in H as (new & H1 & H2 & H3 & H4 & H5 & H6 & H7).
      exists new. repeat split; try assumption.
      - eapply Forall_impl; [exact H6|]. intros p. apply from_reading_cons.
      - now constructor. }
    apply Z.ltb_ge in Hlt.
    destruct (value v) as [raw|] eqn:Hval.
    + destruct (usage_of raw) as [usage|e] eqn:Hu; cbn; [|discriminate].
      destruct (Decimal_add (sum_ st) usage) as [s|e] eqn:Hadd; cbn; [|discriminate].
      intros H. apply IH in H as (new & H1 & H2 & H3 & H4 & H5 & H6 & H7).
      cbn [statistics sum_ last_ts] in *.
      exists ({| stat_start := timestamp v; stat_sum := s; stat_state := usage |} :: new).
      rewrite H1, <- app_assoc. cbn [app]. rewrite last_sum_cons. cbn [stat_sum].
      repeat split; try assumption.
      * constructor; [exact Hmin|exact H5].
      * constructor.
        -- exists v, raw. repeat split; [apply elem_of_cons; now left|exact Hval|exact Hu].
        -- eapply Forall_impl; [exact H6|]. intros p. apply from_reading_cons.
      * now constructor.
    + intros H. apply IH in H as (new & H1 & H2 & H3 & H4 & H5 & H6 & H7).
      cbn [statistics sum_ last_ts] in *.
      exists new. repeat split; try assumption.
      * eapply nondecreasing_from_weaken; [|exact H4]. exact Hlt.
      * eapply Forall_impl; [exact H6|]. intros p. apply from_reading_cons.
      * now constructor.
Qed.

(** ** The runs that reach [async_import_statistics] *)

(** The list handed to the recorder is the concatenation of one block per
    fetched window, in fetch order. *)
Lemma loop_run_imported (gc : datetime -> result Verbrauch) (now start : datetime)
    (sum_ : Decimal) (statistics : list StatisticData) (calls : list datetime)
    (out : list StatisticData) :
  loop_run gc now start sum_ statistics calls (Imported out) ->
  exists blocks,
    out = statistics ++ concat blocks
    /\ Forall2 nondecreasing_from calls blocks
    /\ sum_chain sum_ (concat blocks)
    /\ Forall (fun p => minute (stat_start p) = 0) (concat blocks)
    /\ Forall (fun p => exists s v vs,
                          s ∈ calls /\ gc s = Ok v /\ values v = Some vs
                          /\ from_reading vs p) (concat blocks)
    /\ (forall s v vs,
          s ∈ calls -> gc s = Ok v -> values v = Some vs -> skipped v = false ->
          Forall (fun r => minute (timestamp r) = 0) vs).
Proof.
  remember (Imported out) as o eqn:Ho.
  induction 1 as [start sum_ statistics Hlt
                 |start sum_ statistics e Hlt Hget
                 |start sum_ statistics v0 Hlt Hget Hvs
                 |start sum_ statistics v0 vs calls o Hlt Hget Hvs Hskip Hrun IH
                 |start sum_ statistics v0 vs e Hlt Hget Hvs Hskip Hpv
                 |start sum_ statistics v0 vs Hlt Hget Hvs Hskip Hpv
                 |start sum_ statistics v0 vs st calls o Hlt Hget Hvs Hskip Hpv Hrun IH];
    try discriminate.
  - injection Ho as <-. exists []. cbn. rewrite app_nil_r.
    repeat split; try constructor. intros s v vs Hin. now apply elem_of_nil in Hin.
  - destruct (IH Ho) as (blocks & H1 & H2 & H3 & H4 & H5 & H6).
    exists ([] :: blocks). cbn [concat app]. repeat split; try assumption.
    + constructor; [exact I|exact H2].
    + eapply Forall_impl; [exact H5|]. intros p (s & v & vs' & Hin & Hp).
      exists s, v, vs'. split; [apply elem_of_cons; now right|exact Hp].
    + intros s v vs' Hin Hs Hv Hns. apply elem_of_cons in Hin as [->|Hin].
      * congruence.
      * eapply H6; eauto.
  - destruct (IH Ho) as (blocks & H1 & H2 & H3 & H4 & H5 & H6).
    apply process_values_next in Hpv as (new & N1 & N2 & N3 & N4 & N5 & N6 & N7).
    cbn [Sensor.statistics Sensor.sum_ Sensor.last_ts] in *.
    exists (new :: blocks). cbn [concat]. repeat split.
    + rewrite H1, N1. now rewrite app_assoc.
    + constructor; assumption.
    + apply sum_chain_app. split; [exact N3|]. now rewrite <- N2.
    + apply Forall_app. split; assumption.
    + apply Forall_app. split.
      * eapply Forall_impl; [exact N6|]. intros p Hp.
        exists start, v0, vs. split; [apply elem_of_cons; now left|auto].
      * eapply Forall_impl; [exact H5|]. intros p (s & v & vs' & Hin & Hp).
        exists s, v, vs'. split; [apply elem_of_cons; now right|exact Hp].
    + intros s v vs' Hin Hs Hv Hns. apply elem_of_cons in Hin as [->|Hin].
      * assert (vs' = vs) as -> by congruence. exact N7.
      * eapply H6; eauto.
Qed.

(** ** Alignment of the timestamps *)

(** A reading at 12:00:30 passes the check of [ts.minute]: the run imports a
    point whose timestamp has 30 seconds, and does not end early. *)
Lemma seconds_are_not_checked :
  _import_statistics Scenarios.source_seconds Scenarios.now0 (Aware Scenarios.t0) (DFinite 0 0)
  = Some {| fetched := [Scenarios.t0; Datetime.add Scenarios.t0 (hours 24)];
            result_of := Imported [Scenarios.half_kwh (Scenarios.at_ 12 0 30) 1] |}
  /\ minute (Scenarios.at_ 12 0 30) = 0
  /\ second (Scenarios.at_ 12 0 30) = 30.
Proof. vm_compute. repeat split. Qed.

(** C3, as the code has it.  Every timestamp handed to the recorder has the
    minute 0 (of its own wall clock); and when a window that is fetched and
    not skipped holds a reading whose minute is not 0, the run does not
    reach [async_import_statistics]: it returns early, unless an exception
    ended it before.  Seconds and microseconds are not looked at. *)
Theorem imported_minutes_are_zero
    (gc : datetime -> result Verbrauch) (now : datetime) (start : pydatetime) (sum_ : Decimal) :
  exists run,
    _import_statistics gc now start sum_ = Some run
    /\ (forall stats,
          result_of run = Imported stats ->
          Forall (fun p => minute (stat_start p) = 0) stats)
    /\ (forall s v vs r,
          s ∈ fetched run -> gc s = Ok v -> values v = Some vs -> skipped v = false ->
          r ∈ vs -> minute (timestamp r) <> 0 ->
          result_of run = Aborted \/ exists e, result_of run = Failed e).
Proof.
  destruct start as [start|wall].
  2:{ eexists. split; [reflexivity|]. cbn. split; [discriminate|].
      intros s v vs r Hin. now apply elem_of_nil in Hin. }
  destruct (import_statistics_run gc now start sum_) as (run & Hrun & Hloop).
  exists run. split; [exact Hrun|]. split.
  - intros stats Hres. rewrite Hres in Hloop.
    apply loop_run_imported in Hloop as (blocks & H1 & _ & _ & H4 & _).
    cbn in H1. now rewrite H1.
  - intros s v vs r Hin Hs Hv Hns Hr Hmin.
    destruct (result_of run) as [stats| |e] eqn:Hres; [|now left|right; eauto].
    exfalso. apply loop_run_imported in Hloop as (blocks & _ & _ & _ & _ & _ & H6).
    specialize (H6 s v vs Hin Hs Hv Hns).
    rewrite Forall_forall in H6. apply Hmin. now apply H6.
Qed.

(** Scenario D: the reading at 12:07 ends the run; the point of 11:00 is
    not imported. *)
Lemma scenario_D_aborts :
  exists run,
    _import_statistics Scenarios.source_D Scenarios.now0 (Aware Scenarios.t0) (DFinite 0 0)
    = Some run
    /\ fetched run = [Scenarios.t0]
    /\ result_of run = Aborted.
Proof.
  destruct (imported_minutes_are_zero
              Scenarios.source_D Scenarios.now0 (Aware Scenarios.t0) (DFinite 0 0))
    as (run & Hrun & _ & Hmis).
  exists run. split; [exact Hrun|].
  assert (Hf : fetched run = [Scenarios.t0])
    by (vm_compute in Hrun; injection Hrun as <-; reflexivity).
  split; [exact Hf|].
  destruct (Hmis Scenarios.t0 (Scenarios.usable Scenarios.readings_D) Scenarios.readings_D
              (Scenarios.reading (Scenarios.at_ 12 7 0) (Some 500)))
    as [Hab|[e He]].
  - rewrite Hf. apply elem_of_cons. now left.
  - reflexivity.
  - reflexivity.
  - reflexivity.
  - apply elem_of_cons. right. apply elem_of_cons. now left.
  - vm_compute. discriminate.
  - exact Hab.
  - vm_compute in Hrun. injection Hrun as <-. discriminate He.
Defined.

(** ** One reading *)

(** The order of the two checks.  A reading is tested for its minute
    (sensor.py, line 251) before it is compared with [last_ts] (line 257),
    which is also the order of the rules of the accumulator in the
    specification.  A reading at 11:07 that arrives when [last_ts] is 12:00
    therefore ends up under the first rule: the function returns and the run
    imports nothing.  The rule for late readings is about the readings that
    come as far as the comparison, those whose minute is 0. *)
Lemma minute_is_checked_before_order :
  Datetime.ltb (Scenarios.at_ 11 7 0) (last_ts (Scenarios.after_hour 12)) = true
  /\ process_reading (Scenarios.after_hour 12)
       (Scenarios.reading (Scenarios.at_ 11 7 0) (Some 500)) = Ok Return
  /\ process_values
       [Scenarios.reading (Scenarios.at_ 11 7 0) (Some 500);
        Scenarios.reading (Scenarios.at_ 13 0 0) (Some 500)]
       (Scenarios.after_hour 12) = Ok Return
  /\ _import_statistics Scenarios.source_late_misaligned Scenarios.now0
       (Aware Scenarios.t0) (DFinite 0 0)
     = Some {| fetched := [Scenarios.t0]; result_of := Aborted |}.
Proof. vm_compute. repeat split. Qed.

(** C6.  A reading that comes as far as the comparison with [last_ts] (its
    minute is 0) and whose timestamp is strictly less than [last_ts] is
    dropped: no point is added and [last_ts], [sum_] and [statistics] are
    unchanged, and the loop goes on with the next reading. *)
Theorem late_reading_is_dropped (st : Acc) (r : Reading) (rest : list Reading) :
  minute (timestamp r) = 0 ->
  utc_us (timestamp r) < utc_us (last_ts st) ->
  process_reading st r = Ok (Next st)
  /\ process_values (r :: rest) st = process_values rest st.
Proof.
  intros Hmin Hlt.
  assert (H : process_reading st r = Ok (Next st)).
  { unfold process_reading. apply Z.eqb_eq in Hmin. rewrite Hmin. cbn [negb].
    unfold Datetime.ltb. apply Z.ltb_lt in Hlt. now rewrite Hlt. }
  split; [exact H|]. cbn [process_values]. now rewrite H.
Qed.

(** Scenario E: the reading of hour 3 arrives after that of hour 5. *)
Lemma scenario_E_reading_dropped :
  process_reading (Scenarios.after_hour 5)
    (Scenarios.reading (Scenarios.at_ 3 0 0) (Some 500))
  = Ok (Next (Scenarios.after_hour 5))
  /\ process_values
       [Scenarios.reading (Scenarios.at_ 3 0 0) (Some 500);
        Scenarios.reading (Scenarios.at_ 6 0 0) (Some 500)]
       (Scenarios.after_hour 5)
     = process_values [Scenarios.reading (Scenarios.at_ 6 0 0) (Some 500)]
         (Scenarios.after_hour 5).
Proof.
  apply (late_reading_is_dropped (Scenarios.after_hour 5)
           (Scenarios.reading (Scenarios.at_ 3 0 0) (Some 500))
           [Scenarios.reading (Scenarios.at_ 6 0 0) (Some 500)]).
  - reflexivity.
  - reflexivity.
Defined.

(** C7.  A reading without a value never adds a point and never changes
    the sum: either its minute is not 0 and the function returns (nothing at
    all is imported), or the loop goes on with [sum_] and [statistics] as
    they were; a next reading that passes the checks then adds its usage to
    that unchanged sum, and its point is the only new one. *)
Theorem absent_value_adds_no_point (st : Acc) (r : Reading) :
  value r = None ->
  (minute (timestamp r) <> 0 /\ process_reading st r = Ok Return)
  \/ (minute (timestamp r) = 0
      /\ exists st',
           process_reading st r = Ok (Next st')
           /\ sum_ st' = sum_ st
           /\ statistics st' = statistics st
           /\ forall r2 raw usage s,
                minute (timestamp r2) = 0 ->
                Datetime.ltb (timestamp r2) (last_ts st') = false ->
                value r2 = Some raw ->
                usage_of raw = Ok usage ->
                Decimal_add (sum_ st) usage = Ok s ->
                process_reading st' r2
                = Ok (Next {| last_ts := timestamp r2; sum_ := s;
                              statistics :=
                                statistics st
                                  ++ [{| stat_start := timestamp r2; stat_sum := s;
                                         stat_state := usage |}] |})).
Proof.
  intros Hval. unfold process_reading at 1 2.
  destruct (Z.eqb_spec (minute (timestamp r)) 0) as [Hmin|Hmin]; cbn [negb];
    [right; split; [exact Hmin|]|left; now split].
  assert (Hnext : forall st',
             sum_ st' = sum_ st -> statistics st' = statistics st ->
             forall r2 raw usage s,
               minute (timestamp r2) = 0 ->
               Datetime.ltb (timestamp r2) (last_ts st') = false ->
               value r2 = Some raw ->
               usage_of raw = Ok usage ->
               Decimal_add (sum_ st) usage = Ok s ->
               process_reading st' r2
               = Ok (Next {| last_ts := timestamp r2; sum_ := s;
                             statistics :=
                               statistics st
                                 ++ [{| stat_start := timestamp r2; stat_sum := s;
                                        stat_state := usage |}] |})).
  { intros st' Hs Hst r2 raw usage s Hm2 Hlt2 Hv2 Hu Hadd. unfold process_reading.
    apply Z.eqb_eq in Hm2. rewrite Hm2, Hlt2, Hv2, Hu. cbn.
    rewrite Hs, Hadd. cbn. now rewrite Hst. }
  destruct (Datetime.ltb (timestamp r) (last_ts st)).
  - exists st. repeat split. now apply Hnext.
  - rewrite Hval.
    exists {| last_ts := timestamp r; sum_ := sum_ st; statistics := statistics st |}.
    split; [reflexivity|]. split; [reflexivity|]. split; [reflexivity|].
    now apply Hnext.
Qed.

(** A gap at 01:00 between readings of 500 at 00:00 and 02:00. *)
Lemma gap_between_two_readings :
  (exists st',
     process_reading (Scenarios.after_hour 0)
       (Scenarios.reading (Scenarios.at_ 1 0 0) None) = Ok (Next st')
     /\ sum_ st' = DFinite 5 (-1)
     /\ statistics st' = [Scenarios.half_kwh (Scenarios.at_ 0 0 0) 1]
     /\ process_reading st' (Scenarios.reading (Scenarios.at_ 2 0 0) (Some 500))
        = Ok (Next {| last_ts := Scenarios.at_ 2 0 0; sum_ := DFinite 10 (-1);
                      statistics := [Scenarios.half_kwh (Scenarios.at_ 0 0 0) 1;
                                     Scenarios.half_kwh (Scenarios.at_ 2 0 0) 2] |})).
Proof.
  destruct (absent_value_adds_no_point (Scenarios.after_hour 0)
              (Scenarios.reading (Scenarios.at_ 1 0 0) None) eq_refl)
    as [[Hmin _]|[_ (st' & Hst' & Hsum & Hstats & Hnext)]].
  - exfalso. apply Hmin. reflexivity.
  - exists st'. split; [exact Hst'|]. split; [exact Hsum|]. split; [exact Hstats|].
    apply (Hnext (Scenarios.reading (Scenarios.at_ 2 0 0) (Some 500)) 500
             (DFinite 5 (-1)) (DFinite 10 (-1))).
    + reflexivity.
    + vm_compute in Hst'. injection Hst' as <-. reflexivity.
    + reflexivity.
    + reflexivity.
    + reflexivity.
Defined.

(** ** The usage of a reading *)

Lemma reduce2_spec (k : nat) (m n : positive) (k' : nat) :
  reduce2 m k = (n, k') ->
  (k' <= k)%nat /\ Zpos m * 2 ^ Z.of_nat k' = Zpos n * 2 ^ Z.of_nat k.
Proof.
  revert m. induction k as [|k IH]; intros m.
  - cbn. intros [= <- <-]. split; [lia|reflexivity].
  - destruct m as [m'|m'|]; cbn [reduce2]; try (intros [= <- <-]; split; [lia|reflexivity]).
    intros H. apply IH in H as [Hle Heq]. split; [lia|].
    rewrite Nat2Z.inj_succ, Z.pow_succ_r by lia.
    change (Z.pos m'~0) with (2 * Z.pos m'). lia.
Qed.

(** [Decimal(f)] is exact: the Decimal c * 10^ex and the float
    ± m * 2^e are the same number. *)
Lemma Decimal_of_float_exact (s : bool) (m : positive) (e : Z) :
  exists c ex,
    Decimal_of_float (S754_finite s m e) = DFinite c ex
    /\ ex <= 0
    /\ c * 2 ^ Z.max (- e) 0
       = (if s then -1 else 1) * Zpos m * 2 ^ Z.max e 0 * 10 ^ (- ex).
Proof.
  unfold Decimal_of_float. destruct (Z.leb_spec 0 e) as [He|He].
  - eexists _, 0. split; [reflexivity|]. split; [lia|].
    rewrite Z.max_r, Z.max_l by lia. cbn. lia.
  - destruct (reduce2 m (Z.to_nat (- e))) as [n k] eqn:Hred.
    apply reduce2_spec in Hred as [Hle Heq].
    eexists _, _. split; [reflexivity|]. split; [lia|].
    rewrite Z.max_l, Z.max_r, Z.opp_involutive by lia. cbn [Z.pow].
    rewrite Z2Nat.id in Heq by lia.
    replace (10 ^ Z.of_nat k) with (2 ^ Z.of_nat k * 5 ^ Z.of_nat k)
      by (rewrite <- Z.pow_mul_l; reflexivity).
    rewrite Z.pow_0_r.
    transitivity ((if s then -1 else 1) * 5 ^ Z.of_nat k * (Z.pos n * 2 ^ (- e))); [ring|].
    rewrite <- Heq. ring.
Qed.

(** A reading of 100 from the sum 0: the state is the decimal expansion of
    the binary64 number nearest to 0.1, not 100 / 1000, and the sum is that
    state rounded to 28 digits, not 0 + 100 / 1000 and not 0 + state. *)
Lemma usage_of_100_is_not_a_tenth :
  process_reading {| last_ts := Scenarios.t0; sum_ := DFinite 0 0; statistics := [] |}
    (Scenarios.reading (Scenarios.at_ 0 0 0) (Some 100))
  = Ok (Next {| last_ts := Scenarios.at_ 0 0 0;
                sum_ := DFinite 1000000000000000055511151231 (-28);
                statistics :=
                  [{| stat_start := Scenarios.at_ 0 0 0;
                      stat_sum := DFinite 1000000000000000055511151231 (-28);
                      stat_state :=
                        DFinite 1000000000000000055511151231257827021181583404541015625 (-55) |}] |})
  /\ ~ Deq (DFinite 1000000000000000055511151231257827021181583404541015625 (-55))
           (Scenarios.exact_kwh 100)
  /\ ~ Deq (DFinite 1000000000000000055511151231 (-28)) (Scenarios.exact_kwh 100)
  /\ ~ Deq (DFinite 1000000000000000055511151231 (-28))
           (DFinite 1000000000000000055511151231257827021181583404541015625 (-55)).
Proof.
  split; [vm_compute; reflexivity|].
  repeat split; intros [H1 H2]; vm_compute in H1, H2; auto.
Qed.

(** C8, as the code has it.  For a reading with a value that passes the
    checks of minute and order, [state] is [Decimal(float(raw) / 1000.0)],
    the exact decimal value of the binary64 quotient, and [sum] is the
    [Decimal] sum of the sum before and that state (rounded to the 28
    digits of the context); an exception of either operation leaves the
    loop. *)
Theorem reading_with_value_adds_its_usage (st : Acc) (r : Reading) (raw : Z) :
  minute (timestamp r) = 0 ->
  Datetime.ltb (timestamp r) (last_ts st) = false ->
  value r = Some raw ->
  match int_truediv raw float_1000 with
  | Raise e => process_reading st r = Raise e
  | Ok q =>
      match Decimal_add (sum_ st) (Decimal_of_float q) with
      | Raise e => process_reading st r = Raise e
      | Ok s =>
          process_reading st r
          = Ok (Next {| last_ts := timestamp r; sum_ := s;
                        statistics :=
                          statistics st
                            ++ [{| stat_start := timestamp r; stat_sum := s;
                                   stat_state := Decimal_of_float q |}] |})
      end
  end.
Proof.
  intros Hmin Hlt Hval. unfold process_reading, usage_of.
  apply Z.eqb_eq in Hmin. rewrite Hmin, Hlt, Hval. cbn [negb].
  destruct (int_truediv raw float_1000) as [q|e]; cbn; [|reflexivity].
  destruct (Decimal_add (sum_ st) (Decimal_of_float q)) as [s|e]; reflexivity.
Qed.

(** Scenario B: ten readings of 500, then a day without values: ten points,
    each with the state 0.5 = 500 / 1000, the last sum 5.0, and no point
    from the second window. *)
Lemma scenario_B_ten_points :
  process_reading {| last_ts := Scenarios.t0; sum_ := DFinite 0 0; statistics := [] |}
    (Scenarios.reading (Scenarios.at_ 0 0 0) (Some 500))
  = Ok (Next {| last_ts := Scenarios.at_ 0 0 0; sum_ := DFinite 5 (-1);
                statistics := [] ++ [Scenarios.half_kwh (Scenarios.at_ 0 0 0) 1] |})
  /\ Deq (DFinite 5 (-1)) (Scenarios.exact_kwh 500)
  /\ _import_statistics Scenarios.source_B Scenarios.now0 (Aware Scenarios.t0) (DFinite 0 0)
     = Some {| fetched := [Scenarios.t0; Datetime.add Scenarios.t0 (hours 24)];
               result_of :=
                 Imported
                   (map (fun h => Scenarios.half_kwh (Scenarios.at_ h 0 0) (h + 1))
                        [0; 1; 2; 3; 4; 5; 6; 7; 8; 9]) |}
  /\ Deq (DFinite (5 * (9 + 1)) (-1)) (DFinite 50 (-1)).
Proof.
  split.
  - exact (reading_with_value_adds_its_usage
             {| last_ts := Scenarios.t0; sum_ := DFinite 0 0; statistics := [] |}
             (Scenarios.reading (Scenarios.at_ 0 0 0) (Some 500)) 500
             eq_refl eq_refl eq_refl).
  - split; [split; vm_compute; discriminate|].
    split; [vm_compute; reflexivity|].
    split; vm_compute; discriminate.
Defined.

(** ** Decimal arithmetic: rounding to the context *)

Lemma digits_fuel_spec (fuel : nat) (n : Z) :
  1 <= n < 2 ^ (Z.of_nat fuel + 1) ->
  1 <= digits_fuel fuel n /\ 10 ^ (digits_fuel fuel n - 1) <= n < 10 ^ digits_fuel fuel n.
Proof.
  revert n. induction fuel as [|fuel IH]; intros n Hn.
  - cbn in *. lia.
  - cbn [digits_fuel]. destruct (Z.ltb_spec n 10) as [Hlt|Hge]; [cbn; lia|].
    assert (Hq : 1 <= n / 10 < 2 ^ (Z.of_nat fuel + 1)).
    { split; [apply Z.div_le_lower_bound; lia|].
      apply Z.div_lt_upper_bound; [lia|].
      rewrite Nat2Z.inj_succ in Hn.
      replace (Z.succ (Z.of_nat fuel) + 1) with (Z.succ (Z.of_nat fuel + 1)) in Hn by lia.
      rewrite Z.pow_succ_r in Hn by lia. lia. }
    destruct (IH _ Hq) as (Hd & Hlo & Hhi).
    set (d := digits_fuel fuel (n / 10)) in *.
    replace (1 + d - 1) with (Z.succ (d - 1)) by lia.
    replace (1 + d) with (Z.succ d) by lia.
    rewrite !Z.pow_succ_r by lia.
    pose proof (Z.div_mod n 10 ltac:(lia)).
    pose proof (Z.mod_pos_bound n 10 ltac:(lia)).
    lia.
Qed.

Lemma digits_spec (n : Z) :
  1 <= n -> 1 <= digits n /\ 10 ^ (digits n - 1) <= n < 10 ^ digits n.
Proof.
  intros Hn. unfold digits. apply digits_fuel_spec.
  pose proof (Z.log2_spec n ltac:(lia)) as [_ H].
  pose proof (Z.log2_nonneg n).
  rewrite Z2Nat.id by lia. split; [lia|]. now rewrite <- Z.add_1_r in H.
Qed.

Lemma round_half_even_bounds (c d : Z) :
  0 < d -> c / d <= round_half_even c d <= c / d + 1.
Proof.
  intros Hd. unfold round_half_even.
  destruct (2 * (c mod d) ?= d); [destruct (Z.even (c / d))|..]; lia.
Qed.

Lemma round_half_even_exact (q d : Z) :
  0 < d -> round_half_even (q * d) d = q.
Proof.
  intros Hd. unfold round_half_even.
  rewrite Z.div_mul, Z.mod_mul by lia.
  destruct (Z.compare_spec (2 * 0) d); lia.
Qed.

Lemma fix_context_cases (c e : Z) (r : Decimal) :
  fix_context c e = Ok r ->
  (c = 0 /\ exists e0, r = DFinite 0 e0 /\ Etiny <= e0)
  \/ (c <> 0 /\ r = DFinite c e /\ Z.abs c < 10 ^ ctx_prec /\ Etiny <= e)
  \/ (c <> 0 /\ exists k q' e',
        r = DFinite q' e' /\ 0 < k /\ e + k <= e' /\ Etiny <= e + k
        /\ Z.abs q' < 10 ^ ctx_prec
        /\ q' * 10 ^ (e' - e - k) = round_half_even c (10 ^ k)
        /\ (k = digits (Z.abs c) - ctx_prec \/ e + k = Etiny)).
Proof.
  unfold fix_context.
  destruct (Z.eqb_spec c 0) as [->|Hc].
  { intros [= <-]. left. split; [reflexivity|]. eexists. split; [reflexivity|].
    unfold Etiny, Emax. lia. }
  pose proof (digits_spec (Z.abs c) ltac:(lia)) as (Hd1 & Hdlo & Hdhi).
  set (d := digits (Z.abs c)) in *.
  destruct (Z.ltb_spec Etop (d + e - ctx_prec)) as [|Htop]; [discriminate|].
  destruct (Z.ltb_spec e (Z.max (d + e - ctx_prec) Etiny)) as [Hlt|Hge].
  2:{ intros [= <-]. right. left. split; [exact Hc|]. split; [reflexivity|].
      split; [|lia].
      eapply Z.lt_le_trans; [exact Hdhi|]. apply Z.pow_le_mono_r; lia. }
  set (em := Z.max (d + e - ctx_prec) Etiny) in *.
  set (k := em - e).
  assert (Hk : 0 < k) by (unfold k; lia).
  assert (Hkd : d - ctx_prec <= k) by (unfold k, em; lia).
  set (q := round_half_even c (10 ^ k)).
  assert (Hpk : 0 < 10 ^ k) by (apply Z.pow_pos_nonneg; lia).
  assert (Hq : Z.abs q <= 10 ^ ctx_prec).
  { pose proof (round_half_even_bounds c (10 ^ k) Hpk) as [Hlo Hhi].
    fold q in Hlo, Hhi.
    assert (Hc28 : Z.abs c < 10 ^ ctx_prec * 10 ^ k).
    { rewrite <- Z.pow_add_r by (unfold ctx_prec; lia).
      eapply Z.lt_le_trans; [exact Hdhi|]. apply Z.pow_le_mono_r; lia. }
    assert (- 10 ^ ctx_prec <= c / 10 ^ k)
      by (apply Z.div_le_lower_bound; lia).
    assert (c / 10 ^ k < 10 ^ ctx_prec)
      by (apply Z.div_lt_upper_bound; lia).
    lia. }
  destruct (Z.leb_spec (10 ^ ctx_prec) (Z.abs q)) as [Hcarry|Hnc].
  - destruct (Z.ltb_spec Etop (em + 1)); [discriminate|].
    intros [= <-]. right. right. split; [exact Hc|].
    exists k, (q / 10), (em + 1). split; [reflexivity|].
    assert (Hq10 : q = 10 ^ ctx_prec \/ q = - 10 ^ ctx_prec) by lia.
    assert (Hdiv : q / 10 * 10 = q /\ Z.abs (q / 10) < 10 ^ ctx_prec).
    { destruct Hq10 as [-> | ->]; vm_compute; split; reflexivity. }
    split; [exact Hk|]. split; [unfold k; lia|]. split; [unfold k, em; lia|].
    split; [tauto|]. split; [|unfold k, em; lia].
    replace (em + 1 - e - k) with 1 by (unfold k; lia). rewrite Z.pow_1_r. tauto.
  - destruct (Z.ltb_spec Etop em); [discriminate|].
    intros [= <-]. right. right. split; [exact Hc|].
    exists k, q, em. split; [reflexivity|].
    split; [exact Hk|]. split; [unfold k; lia|]. split; [unfold k, em; lia|].
    split; [lia|]. split; [|unfold k, em; lia].
    replace (em - e - k) with 0 by (unfold k; lia). cbn. lia.
Qed.

Lemma Dle_scaled (c1 e1 c2 e2 e0 : Z) :
  e0 <= e1 -> e0 <= e2 ->
  c1 * 10 ^ (e1 - e0) <= c2 * 10 ^ (e2 - e0) <-> Dle (DFinite c1 e1) (DFinite c2 e2).
Proof.
  intros H1 H2. unfold Dle. cbv zeta.
  set (m := Z.min e1 e2).
  assert (Hp : 0 < 10 ^ (m - e0)) by (apply Z.pow_pos_nonneg; lia).
  replace (e1 - e0) with ((e1 - m) + (m - e0)) by lia.
  replace (e2 - e0) with ((e2 - m) + (m - e0)) by lia.
  rewrite !Z.pow_add_r by lia. rewrite !Z.mul_assoc.
  split; intros H.
  - apply Z.mul_le_mono_pos_r in H; assumption.
  - apply Z.mul_le_mono_pos_r; assumption.
Qed.

Lemma fix_context_above (c e cs es c' e' : Z) :
  fix_context c e = Ok (DFinite c' e') ->
  e <= es -> Etiny <= es -> Z.abs cs < 10 ^ ctx_prec ->
  cs * 10 ^ (es - e) <= c ->
  Dle (DFinite cs es) (DFinite c' e').
Proof.
  intros Hfix Hes Htiny Hcs HS.
  assert (Hpe : 0 < 10 ^ (es - e)) by (apply Z.pow_pos_nonneg; lia).
  apply fix_context_cases in Hfix
    as [(-> & e0 & [= -> ->] & He0)
       |[(Hc & [= -> ->] & _)
        |(Hc & k & q' & e'' & [= -> ->] & Hk & Hek & Hkt & Hq' & Hq & Hkd)]].
  - unfold Dle. cbv zeta. rewrite Z.mul_0_l.
    assert (cs <= 0) by nia.
    assert (0 <= 10 ^ (es - Z.min es e0)) by (apply Z.pow_nonneg; lia). nia.
  - apply (Dle_scaled cs es c e e); [lia|lia|].
    now rewrite Z.sub_diag, Z.pow_0_r, Z.mul_1_r.
  - apply (Dle_scaled cs es q' e'' e); [lia|lia|].
    assert (Hpk : 0 < 10 ^ k) by (apply Z.pow_pos_nonneg; lia).
    replace (e'' - e) with ((e'' - e - k) + k) by lia.
    rewrite Z.pow_add_r, Z.mul_assoc, Hq by lia.
    pose proof (round_half_even_bounds c (10 ^ k) Hpk) as [Hlo _].
    set (q := round_half_even c (10 ^ k)) in *.
    destruct (Z.le_gt_cases (e + k) es) as [Hcase|Hcase].
    + replace (es - e) with ((es - e - k) + k) in * by lia.
      rewrite Z.pow_add_r, Z.mul_assoc in * by lia.
      assert (cs * 10 ^ (es - e - k) <= c / 10 ^ k)
        by (apply Z.div_le_lower_bound; lia).
      nia.
    + destruct Hkd as [Hkd|Hkd]; [|lia].
      pose proof (digits_spec (Z.abs c) ltac:(lia)) as (_ & Hdlo & _).
      replace (digits (Z.abs c) - 1) with (ctx_prec - 1 + k) in Hdlo by lia.
      assert (Hbound : Z.abs (cs * 10 ^ (es - e)) < 10 ^ (ctx_prec - 1 + k)).
      { rewrite Z.abs_mul, (Z.abs_eq (10 ^ _)) by lia.
        apply Z.lt_le_trans with (10 ^ ctx_prec * 10 ^ (es - e)); [nia|].
        rewrite <- Z.pow_add_r by (unfold ctx_prec; lia).
        apply Z.pow_le_mono_r; lia. }
      rewrite Z.pow_add_r in Hdlo, Hbound by (unfold ctx_prec; lia).
      assert (Hcpos : 10 ^ (ctx_prec - 1) * 10 ^ k <= c) by lia.
      assert (10 ^ (ctx_prec - 1) <= c / 10 ^ k)
        by (apply Z.div_le_lower_bound; lia).
      nia.
Qed.

Lemma fix_context_canonical (c e : Z) (r : Decimal) :
  fix_context c e = Ok r -> canonical r.
Proof.
  intros H. apply fix_context_cases in H
    as [(-> & e0 & -> & He0)
       |[(Hc & -> & Habs & He)
        |(Hc & k & q' & e' & -> & Hk & Hek & Hkt & Hq' & _)]]; cbn.
  - split; [reflexivity|exact He0].
  - split; assumption.
  - split; [assumption|lia].
Qed.

Lemma Decimal_add_canonical (a b r : Decimal) :
  Decimal_add a b = Ok r -> a <> DNaN -> b <> DNaN -> canonical r.
Proof.
  destruct a as [c1 e1|s1|], b as [c2 e2|s2|]; cbn; try congruence.
  - intros H _ _. eapply fix_context_canonical, H.
  - intros [= <-] _ _. exact I.
  - intros [= <-] _ _. exact I.
  - destruct (Bool.eqb s1 s2); [|discriminate]. intros [= <-] _ _. exact I.
Qed.

Lemma Decimal_add_above (a u r : Decimal) :
  Decimal_add a u = Ok r -> canonical a -> nonnegative u -> Dle a r.
Proof.
  destruct a as [cs es|s1|], u as [cu eu|s2|]; cbn; try tauto.
  - intros Hfix [Hcs Hes] Hcu.
    assert (Hr : exists c' e', r = DFinite c' e').
    { apply fix_context_cases in Hfix
        as [(_ & e0 & -> & _)|[(_ & -> & _)|(_ & k & q' & e' & -> & _)]]; eauto. }
    destruct Hr as (c' & e' & ->).
    eapply fix_context_above; [exact Hfix|lia|exact Hes|exact Hcs|].
    assert (0 <= 10 ^ (eu - Z.min es eu)) by (apply Z.pow_nonneg; lia). nia.
  - intros [= <-] _ ->. exact I.
  - intros [= <-] _ _. now destruct s1.
  - intros H _ ->. destruct s1; cbn in H; [discriminate|].
    injection H as <-. exact I.
Qed.

(** *** The sign of [float(raw) / 1000.0] *)

Lemma shr_1_nonneg (mrs : shr_record) : 0 <= shr_m mrs -> 0 <= shr_m (shr_1 mrs).
Proof.
  destruct mrs as [m r s]. cbn [shr_m]. intros Hm.
  destruct m as [|[p|p|]|p]; cbn; lia.
Qed.

Lemma iter_pos_invariant {A : Type} (P : A -> Prop) (f : A -> A) :
  (forall x, P x -> P (f x)) -> forall n x, P x -> P (SpecFloat.iter_pos f n x).
Proof.
  intros Hf. induction n as [n IH|n IH|]; intros x Hx; cbn; auto.
Qed.

Lemma shr_fexp_nonneg (m e : Z) (l : location) :
  0 <= m -> 0 <= shr_m (fst (shr_fexp prec emax m e l)).
Proof.
  intros Hm. unfold shr_fexp, shr.
  assert (H0 : 0 <= shr_m (shr_record_of_loc m l))
    by (destruct l as [|[]]; exact Hm).
  destruct (fexp prec emax (Zdigits2 m + e) - e) as [|p|p]; cbn [fst]; try exact H0.
  apply (iter_pos_invariant (fun mrs => 0 <= shr_m mrs)); [exact shr_1_nonneg|exact H0].
Qed.

Lemma binary_round_aux_signed (sx : bool) (mx ex : Z) (lx : location) :
  0 <= mx -> signed sx (binary_round_aux prec emax sx mx ex lx).
Proof.
  intros Hm. unfold binary_round_aux.
  pose proof (shr_fexp_nonneg mx ex lx Hm) as H1.
  destruct (shr_fexp prec emax mx ex lx) as [mrs' e']. cbn [fst] in H1.
  assert (H2 : 0 <= round_nearest_even (shr_m mrs') (loc_of_shr_record mrs')).
  { unfold round_nearest_even.
    destruct (loc_of_shr_record mrs') as [|[]]; try lia.
    destruct (Z.even (shr_m mrs')); lia. }
  pose proof (shr_fexp_nonneg _ e' loc_Exact H2) as H3.
  destruct (shr_fexp prec emax _ e' loc_Exact) as [mrs'' e'']. cbn [fst] in H3.
  destruct (shr_m mrs'') as [|p|p]; [reflexivity| |lia].
  destruct (e'' <=? emax - prec); reflexivity.
Qed.

Lemma float_of_int_signed (z : Z) (f : spec_float) :
  0 <= z -> float_of_int z = Ok f ->
  signed false f /\ f <> S754_infinity false.
Proof.
  intros Hz. unfold float_of_int, binary_normalize.
  destruct z as [|p|p]; [| |lia].
  - intros [= <-]. split; [reflexivity|discriminate].
  - unfold binary_round.
    destruct (shl_align p 0 _) as [mz ez].
    pose proof (binary_round_aux_signed false (Zpos mz) ez loc_Exact ltac:(lia)) as Hs.
    destruct (binary_round_aux prec emax false (Zpos mz) ez loc_Exact) as [s|s|  |s m e];
      try discriminate; intros [= <-]; (split; [exact Hs|discriminate]).
Qed.

Lemma div_1000_signed (x : spec_float) :
  signed false x -> x <> S754_infinity false ->
  signed false (SFdiv prec emax x float_1000).
Proof.
  destruct x as [s|s| |s m e]; cbn [signed]; try tauto.
  - intros -> _. reflexivity.
  - intros -> H. congruence.
  - intros -> _. unfold SFdiv, float_1000.
    destruct (SFdiv_core_binary prec emax (Z.pos m) e 8796093022208000 (-43))
      as [[mz ez] lz] eqn:Hcore.
    apply binary_round_aux_signed.
    unfold SFdiv_core_binary in Hcore.
    match type of Hcore with
    | (let '(q, r) := Z.div_eucl ?a ?b in _) = _ =>
        pose proof (Z_div_mod a b ltac:(lia)) as Hdm;
        assert (Ha : 0 <= a);
        [|destruct (Z.div_eucl a b) as [q r]]
    end.
    { destruct (_ - _ - _) as [|p|p]; [lia| |lia].
      apply Z.shiftl_nonneg. lia. }
    injection Hcore as <- _ _. nia.
Qed.

Lemma Decimal_of_float_nonnegative (f : spec_float) :
  signed false f -> nonnegative (Decimal_of_float f).
Proof.
  destruct f as [s|s| |s m e]; cbn [signed]; try tauto.
  - intros _. cbn. lia.
  - intros ->. unfold Decimal_of_float.
    destruct (0 <=? e).
    + cbn. assert (0 <= 2 ^ e) by (apply Z.pow_nonneg; lia). nia.
    + destruct (reduce2 m _) as [n k]. cbn.
      assert (0 <= 5 ^ Z.of_nat k) by (apply Z.pow_nonneg; lia). nia.
Qed.

Lemma usage_of_nonnegative (raw : Z) (u : Decimal) :
  0 <= raw -> usage_of raw = Ok u -> nonnegative u.
Proof.
  intros Hraw. unfold usage_of, int_truediv.
  destruct (float_of_int raw) as [x|e] eqn:Hx; cbn; [|discriminate].
  intros [= <-]. apply float_of_int_signed in Hx as [Hs Hinf]; [|exact Hraw].
  apply Decimal_of_float_nonnegative, div_1000_signed; assumption.
Qed.

(** ** The sequence handed to the recorder *)

(** Equal timestamps pass the check [ts < last_ts]; [last_ts] starts again
    at every window; nothing requires a reading to be non-negative. *)
Lemma timestamps_and_sums_can_go_back :
  (_import_statistics Scenarios.source_duplicate Scenarios.now0 (Aware Scenarios.t0) (DFinite 0 0)
   = Some {| fetched := [Scenarios.t0; Datetime.add Scenarios.t0 (hours 24)];
             result_of := Imported [Scenarios.half_kwh (Scenarios.at_ 0 0 0) 1;
                                    Scenarios.half_kwh (Scenarios.at_ 0 0 0) 2] |}
   /\ ~ strictly_increasing_timestamps
          [Scenarios.half_kwh (Scenarios.at_ 0 0 0) 1; Scenarios.half_kwh (Scenarios.at_ 0 0 0) 2])
  /\ (_import_statistics Scenarios.source_overlap Scenarios.now0 (Aware Scenarios.t0) (DFinite 0 0)
      = Some {| fetched := [Scenarios.t0; Datetime.add Scenarios.t0 (hours 24)];
                result_of := Imported [Scenarios.half_kwh (Scenarios.at_ 30 0 0) 1;
                                       Scenarios.half_kwh (Scenarios.at_ 24 0 0) 2] |}
      /\ ~ strictly_increasing_timestamps
             [Scenarios.half_kwh (Scenarios.at_ 30 0 0) 1; Scenarios.half_kwh (Scenarios.at_ 24 0 0) 2])
  /\ (_import_statistics Scenarios.source_negative Scenarios.now0 (Aware Scenarios.t0) (DFinite 0 0)
      = Some {| fetched := [Scenarios.t0; Datetime.add Scenarios.t0 (hours 24)];
                result_of :=
                  Imported [Scenarios.half_kwh (Scenarios.at_ 0 0 0) 1;
                            {| stat_start := Scenarios.at_ 1 0 0; stat_sum := DFinite 25 (-2);
                               stat_state := DFinite (-25) (-2) |}] |}
      /\ ~ nondecreasing_sums
             [Scenarios.half_kwh (Scenarios.at_ 0 0 0) 1;
              {| stat_start := Scenarios.at_ 1 0 0; stat_sum := DFinite 25 (-2);
                 stat_state := DFinite (-25) (-2) |}]).
Proof.
  repeat split; try (vm_compute; reflexivity);
    intros [H _]; vm_compute in H; try discriminate H; apply H; reflexivity.
Qed.

Lemma sum_chain_from_canonical (prev : Decimal) (l : list StatisticData) :
  sum_chain prev l -> canonical prev ->
  Forall (fun p => nonnegative (stat_state p)) l ->
  match l with
  | p :: _ => Dle prev (stat_sum p)
  | [] => True
  end /\ nondecreasing_sums l.
Proof.
  revert prev. induction l as [|p l IH]; intros prev Hchain Hprev Hnn; [now split|].
  destruct Hchain as [Hadd Hchain]. apply Forall_cons in Hnn as [Hp Hnn].
  split; [eapply Decimal_add_above; eassumption|].
  assert (Hsum : canonical (stat_sum p)).
  { eapply Decimal_add_canonical; [exact Hadd| |].
    - intros ->. exact Hprev.
    - intros E. rewrite E in Hp. exact Hp. }
  destruct (IH _ Hchain Hsum Hnn) as [Hhead Htail].
  unfold nondecreasing_sums in *. destruct l as [|q l]; [exact I|].
  cbn [adjacent]. split; assumption.
Qed.

Lemma sum_chain_nondecreasing (prev : Decimal) (l : list StatisticData) :
  sum_chain prev l -> prev <> DNaN ->
  Forall (fun p => nonnegative (stat_state p)) l ->
  nondecreasing_sums l.
Proof.
  destruct l as [|p l]; [intros; exact I|].
  intros [Hadd Hchain] Hprev Hnn. apply Forall_cons in Hnn as [Hp Hnn].
  assert (Hsum : canonical (stat_sum p)).
  { eapply Decimal_add_canonical; [exact Hadd|exact Hprev|].
    intros E. rewrite E in Hp. exact Hp. }
  destruct (sum_chain_from_canonical _ _ Hchain Hsum Hnn) as [Hhead Htail].
  unfold nondecreasing_sums in *. destruct l as [|q l]; [exact I|].
  cbn [adjacent]. split; assumption.
Qed.

(** C2, as the code has it.  When a run reaches [async_import_statistics],
    the list it hands over is the concatenation, in fetch order, of one
    block per fetched window; within a block the timestamps never go back
    and none is before the start of the window (equal timestamps are kept,
    and a later block may start before the end of an earlier one); each
    [sum] is the [Decimal] sum of the sum before it (for the first point:
    the [sum_] the run started from) and the point's [state]; and the sums
    never decrease when the run started from a number and no reading of
    the fetched windows is negative. *)
Theorem imported_sequence_is_chained
    (gc : datetime -> result Verbrauch) (now : datetime) (start : pydatetime) (sum_ : Decimal) :
  exists run,
    _import_statistics gc now start sum_ = Some run
    /\ forall stats,
         result_of run = Imported stats ->
         sum_chain sum_ stats
         /\ (exists blocks,
               stats = concat blocks
               /\ Forall2 nondecreasing_from (fetched run) blocks)
         /\ (sum_ <> DNaN ->
             (forall s v vs r raw,
                s ∈ fetched run -> gc s = Ok v -> values v = Some vs ->
                r ∈ vs -> value r = Some raw -> 0 <= raw) ->
             nondecreasing_sums stats).
Proof.
  destruct start as [start|wall]; [|eexists; split; [reflexivity|discriminate]].
  destruct (import_statistics_run gc now start sum_) as (run & Hrun & Hloop).
  exists run. split; [exact Hrun|]. intros stats Hres. rewrite Hres in Hloop.
  apply loop_run_imported in Hloop as (blocks & H1 & H2 & H3 & _ & H5 & _).
  cbn [app] in H1. subst stats.
  split; [exact H3|]. split; [eauto|].
  intros Hnan Hraw. eapply sum_chain_nondecreasing; [exact H3|exact Hnan|].
  eapply Forall_impl; [exact H5|].
  intros p (s & v & vs & Hin & Hs & Hvs & r & raw & Hr & Hval & _ & Hu).
  eapply usage_of_nonnegative; [|exact Hu]. eapply Hraw; eassumption.
Qed.

(** The run of Scenario B: one block of ten points, one empty block; the
    sums chain from 0 and never decrease. *)
Lemma scenario_B_is_chained :
  exists stats,
    _import_statistics Scenarios.source_B Scenarios.now0 (Aware Scenarios.t0) (DFinite 0 0)
    = Some {| fetched := [Scenarios.t0; Datetime.add Scenarios.t0 (hours 24)];
              result_of := Imported stats |}
    /\ List.length stats = 10%nat
    /\ last_sum (DFinite 0 0) stats = DFinite 50 (-1)
    /\ sum_chain (DFinite 0 0) stats
    /\ (exists blocks,
          stats = concat blocks
          /\ Forall2 nondecreasing_from
               [Scenarios.t0; Datetime.add Scenarios.t0 (hours 24)] blocks)
    /\ nondecreasing_sums stats.
Proof.
  destruct (imported_sequence_is_chained
              Scenarios.source_B Scenarios.now0 (Aware Scenarios.t0) (DFinite 0 0))
    as (run & Hrun & Hshape).
  assert (Heq : _import_statistics Scenarios.source_B Scenarios.now0 (Aware Scenarios.t0)
                  (DFinite 0 0)
                = Some {| fetched := [Scenarios.t0; Datetime.add Scenarios.t0 (hours 24)];
                          result_of :=
                            Imported
                              (map (fun h => Scenarios.half_kwh (Scenarios.at_ h 0 0) (h + 1))
                                 [0; 1; 2; 3; 4; 5; 6; 7; 8; 9]) |})
    by (vm_compute; reflexivity).
  rewrite Heq in Hrun. injection Hrun as <-.
  destruct (Hshape _ eq_refl) as (Hchain & Hblocks & Hsums).
  eexists. split; [exact Heq|]. split; [reflexivity|]. split; [reflexivity|].
  split; [exact Hchain|]. split; [exact Hblocks|].
  apply Hsums; [discriminate|].
  cbn [fetched]. intros s v vs r raw Hs Hv Hvs Hr Hval.
  apply elem_of_cons in Hs as [->|Hs]; [|apply list_elem_of_singleton in Hs as ->].
  - vm_compute in Hv. injection Hv as <-. cbn in Hvs. injection Hvs as <-.
    repeat (apply elem_of_cons in Hr as [->|Hr]; [cbn in Hval; injection Hval as <-; lia|]).
    now apply elem_of_nil in Hr.
  - vm_compute in Hv. injection Hv as <-. cbn in Hvs. injection Hvs as <-.
    repeat (apply elem_of_cons in Hr as [->|Hr]; [cbn in Hval; discriminate|]).
    now apply elem_of_nil in Hr.
Defined.

(** * Further properties of the code *)

(** ** [utils.py]: accessors and paths *)

Lemma split_dot_nonempty (s : string) : split_dot s <> [].
Proof.
  destruct s as [|c s]; [discriminate|]. cbn.
  destruct (Ascii.eqb c "."); [discriminate|].
  destruct (split_dot s); discriminate.
Qed.

Lemma split_dot_dotted (a b : string) :
  split_dot (dotted a b) = split_dot a ++ split_dot b.
Proof.
  unfold dotted. induction a as [|c a IH]; [reflexivity|].
  change (String c a +:+ String "." b) with (String c (a +:+ String "." b)).
  change (split_dot (String c (a +:+ String "." b)))
    with (if Ascii.eqb c "."
          then EmptyString :: split_dot (a +:+ String "." b)
          else match split_dot (a +:+ String "." b) with
               | seg :: segs => String c seg :: segs
               | [] => [String c EmptyString]
               end).
  change (split_dot (String c a))
    with (if Ascii.eqb c "."
          then EmptyString :: split_dot a
          else match split_dot a with
               | seg :: segs => String c seg :: segs
               | [] => [String c EmptyString]
               end).
  rewrite IH. destruct (Ascii.eqb c "."); [reflexivity|].
  pose proof (split_dot_nonempty a).
  destruct (split_dot a) as [|seg segs]; [congruence|reflexivity].
Qed.

Lemma split_dot_dotless (s : string) : dotless s = true -> split_dot s = [s].
Proof.
  unfold dotless. induction s as [|c s IH]; [reflexivity|].
  cbn [all_chars split_dot]. intros H. apply andb_prop in H as [Hc Hs].
  apply negb_true_iff in Hc. rewrite Hc, (IH Hs). reflexivity.
Qed.

Lemma mapM_app {A B} (f : A -> result B) (l1 l2 : list A) :
  mapM f (l1 ++ l2)
  = Py.bind (mapM f l1) (fun xs => Py.bind (mapM f l2) (fun ys => Ok (xs ++ ys))).
Proof.
  induction l1 as [|x l1 IH]; cbn.
  - destruct (mapM f l2); reflexivity.
  - destruct (f x); cbn; [|reflexivity]. rewrite IH.
    destruct (mapM f l1); cbn; [|reflexivity].
    destruct (mapM f l2); reflexivity.
Qed.

Lemma reduceM_app {A B} (f : B -> A -> result B) (l1 l2 : list A) (init : B) :
  reduceM f (l1 ++ l2) init = Py.bind (reduceM f l1 init) (reduceM f l2).
Proof.
  revert init. induction l1 as [|x l1 IH]; intros init; cbn; [reflexivity|].
  destruct (f init x); cbn; [apply IH|reflexivity].
Qed.

Lemma dict_path_of_accessors (path : string) (accs : list accessor) (d v : json) :
  mapM strint (split_dot path) = Ok accs ->
  reduceM dict_path_step accs d = Ok v ->
  dict_path path d = v.
Proof.
  intros Hm Hr. unfold dict_path, dict_path_try. rewrite Hm. cbn. now rewrite Hr.
Qed.

Lemma dict_path_of_ValueError (path : string) (e : exn) (d : json) :
  mapM strint (split_dot path) = Raise e -> dict_path path d = JNull.
Proof.
  intros Hm. unfold dict_path, dict_path_try. rewrite Hm. cbn. now destruct e.
Qed.

Lemma dict_path_None (path : string) : dict_path path JNull = JNull.
Proof.
  destruct (mapM strint (split_dot path)) as [accs|e] eqn:Hm.
  - eapply dict_path_of_accessors; [exact Hm|apply reduce_from_None].
  - eapply dict_path_of_ValueError, Hm.
Qed.

(** X1.  Paths compose: looking up [a.b] is looking up [b] in what [a]
    gives, whatever the two parts and the data are (a part that fails gives
    [None], and every path gives [None] in [None]). *)
Theorem dict_path_composes (a b : string) (d : json) :
  dict_path (dotted a b) d = dict_path b (dict_path a d).
Proof.
  destruct (mapM strint (split_dot a)) as [accs_a|ea] eqn:Ha.
  2:{ rewrite (dict_path_of_ValueError a ea d Ha), dict_path_None.
      eapply dict_path_of_ValueError. rewrite split_dot_dotted, mapM_app, Ha. reflexivity. }
  destruct (reduce_dict_path_step accs_a d) as (va & Hra & _);
    [eapply mapM_strint_from_strint, Ha|].
  rewrite (dict_path_of_accessors a accs_a d va Ha Hra).
  destruct (mapM strint (split_dot b)) as [accs_b|eb] eqn:Hb.
  2:{ rewrite (dict_path_of_ValueError b eb va Hb).
      eapply dict_path_of_ValueError. rewrite split_dot_dotted, mapM_app, Ha, Hb. reflexivity. }
  destruct (reduce_dict_path_step accs_b va) as (vb & Hrb & _);
    [eapply mapM_strint_from_strint, Hb|].
  rewrite (dict_path_of_accessors b accs_b va vb Hb Hrb).
  eapply dict_path_of_accessors.
  - rewrite split_dot_dotted, mapM_app, Ha, Hb. reflexivity.
  - rewrite reduceM_app, Hra. exact Hrb.
Qed.

(** X2.  For an accessor that [strint] can produce, [is_valid_access] holds
    exactly when the data is a list or a dict and the subscription
    [data[accessor]] succeeds; a [str] is never accepted, although Python
    could index it. *)
Theorem is_valid_access_decides_subscription (data : json) (a : accessor) :
  from_strint a ->
  is_valid_access data a = true
  <-> is_container data = true /\ exists v, getitem data a = Ok v.
Proof.
  intros Ha. split.
  - intros Hv. split; [|now apply valid_access_getitem].
    destruct a, data; try discriminate; reflexivity.
  - intros [Hc [v Hg]].
    destruct data as [| | | | |l|m]; try discriminate; destruct a as [n|s]; cbn in *;
      try discriminate.
    + assert (E : (n <? 0) = false) by (apply Z.ltb_ge; lia). rewrite !E in Hg.
      destruct (l !! Z.to_nat n) eqn:Hl; [|discriminate].
      apply lookup_lt_Some in Hl. apply Z.ltb_lt. lia.
    + destruct (m !! s) eqn:Hm; [|discriminate]. apply bool_decide_eq_true. eauto.
Qed.

Lemma is_valid_access_example :
  is_valid_access (JList [JInt 7; JInt 8]) (AInt 1) = true
  <-> is_container (JList [JInt 7; JInt 8]) = true
      /\ exists v, getitem (JList [JInt 7; JInt 8]) (AInt 1) = Ok v.
Proof.
  apply (is_valid_access_decides_subscription (JList [JInt 7; JInt 8]) (AInt 1)).
  cbn. lia.
Defined.

(** X3.  A negative index always passes [is_valid_access] on a list, also
    when it is below [-len(data)], where the subscription raises
    [IndexError]: the check has no lower bound. *)
Theorem negative_index_passes_the_check (l : list json) (n : Z) :
  n < 0 ->
  is_valid_access (JList l) (AInt n) = true
  /\ (n < - Z.of_nat (List.length l) ->
      getitem (JList l) (AInt n) = Raise IndexError
      /\ dict_path_step (JList l) (AInt n) = Raise IndexError).
Proof.
  intros Hn. assert (Hv : is_valid_access (JList l) (AInt n) = true)
    by (cbn; apply Z.ltb_lt; lia).
  split; [exact Hv|]. intros Hlow.
  assert (Hg : getitem (JList l) (AInt n) = Raise IndexError).
  { cbn. assert (E : (n <? 0) = true) by (apply Z.ltb_lt; lia). rewrite E.
    assert (E' : (n + Z.of_nat (List.length l) <? 0) = true) by (apply Z.ltb_lt; lia).
    now rewrite E'. }
  split; [exact Hg|]. unfold dict_path_step. now rewrite Hv.
Qed.

Lemma negative_index_example :
  is_valid_access (JList [JInt 7]) (AInt (-5)) = true
  /\ (-5 < - Z.of_nat (List.length [JInt 7]) ->
      getitem (JList [JInt 7]) (AInt (-5)) = Raise IndexError
      /\ dict_path_step (JList [JInt 7]) (AInt (-5)) = Raise IndexError).
Proof. apply (negative_index_passes_the_check [JInt 7] (-5)). lia. Defined.

Lemma isdigit_strint_AInt (s : string) (a : accessor) :
  isdigit s = true -> strint s = Ok a -> exists n, a = AInt n.
Proof.
  unfold strint. intros ->. destruct (int_of_str s); cbn; [|discriminate].
  intros [= <-]. eauto.
Qed.

(** X4.  A path whose first part is made of digits gives [None] in every
    dict, also in one that has that very key: digits are always read as a
    list index. *)
Theorem digit_key_is_unreachable (path seg : string) (segs : list string)
    (m : gmap string json) :
  split_dot path = seg :: segs ->
  isdigit seg = true ->
  dict_path path (JDict m) = JNull.
Proof.
  intros Hsplit Hdigit.
  destruct (mapM strint (split_dot path)) as [accs|e] eqn:Hm;
    [|eapply dict_path_of_ValueError, Hm].
  rewrite Hsplit in Hm. cbn [mapM] in Hm.
  destruct (strint seg) as [a|] eqn:Hs; cbn in Hm; [|discriminate].
  destruct (isdigit_strint_AInt seg a Hdigit Hs) as [n ->].
  destruct (mapM strint segs) as [rest|] eqn:Hrest; cbn in Hm; [|discriminate].
  injection Hm as <-.
  apply (dict_path_of_accessors path (AInt n :: rest)).
  - rewrite Hsplit. cbn [mapM]. rewrite Hs, Hrest. reflexivity.
  - cbn. apply reduce_from_None.
Qed.

Lemma digit_key_example :
  dict_path "0.name" (JDict {[ "0" := JDict {[ "name" := JStr "x" ]} ]}) = JNull.
Proof.
  apply (digit_key_is_unreachable "0.name" "0" ["name"]
           {[ "0" := JDict {[ "name" := JStr "x" ]} ]}).
  - reflexivity.
  - reflexivity.
Defined.

(** X5.  A path without a dot that is not made of digits is a plain lookup
    of that key in a dict: the value stored there, [None] when the key is
    missing. *)
Theorem dict_path_single_key (key : string) (m : gmap string json) :
  dotless key = true ->
  isdigit key = false ->
  dict_path key (JDict m) = default JNull (m !! key).
Proof.
  intros Hdot Hdigit.
  apply (dict_path_of_accessors key [AStr key]).
  - rewrite (split_dot_dotless key Hdot). cbn [mapM]. unfold strint. now rewrite Hdigit.
  - cbn [reduceM]. unfold dict_path_step. cbn [is_valid_access getitem].
    case_bool_decide as Hs.
    + destruct Hs as [v Hv]. rewrite Hv. reflexivity.
    + destruct (m !! key) as [v|] eqn:Hm; [|reflexivity]. exfalso. apply Hs. eauto.
Qed.

Lemma dict_path_single_key_example :
  dict_path "optIn" (JDict (<["optIn" := JBool true]> ∅))
  = default JNull ((<["optIn" := JBool true]> ∅ : gmap string json) !! "optIn").
Proof.
  apply (dict_path_single_key "optIn" (<["optIn" := JBool true]> ∅)); reflexivity.
Defined.

(** ** [utils.py]: [translate_dict] *)

Lemma translate_dict_fold_value (d : json) (attrs : list (string * string))
    (m : gmap string json) (k : string) (v : json) :
  fold_left
    (fun (result : gmap string json) '(src, dest) =>
       let value := dict_path src d in
       if is_None value then result else <[dest := value]> result)
    attrs m !! k = Some v ->
  m !! k = Some v
  \/ (v <> JNull /\ exists src, (src, k) ∈ attrs /\ dict_path src d = v).
Proof.
  revert m. induction attrs as [|[src dest] attrs IH]; intros m; [now left|].
  cbn [fold_left]. intros H. apply IH in H as [H|(Hv & s & Hin & Hs)].
  - cbv zeta in H. destruct (is_None (dict_path src d)) eqn:Hn; [now left|].
    destruct (decide (dest = k)) as [->|Hne].
    + rewrite lookup_insert_eq in H. injection H as <-. right. split.
      * intros E. rewrite E in Hn. discriminate.
      * exists src. split; [apply elem_of_cons; now left|reflexivity].
    + rewrite lookup_insert_ne in H by exact Hne. now left.
  - right. split; [exact Hv|]. exists s. split; [apply elem_of_cons; now right|exact Hs].
Qed.

(** X6.  No entry of the dictionary that [translate_dict] returns is
    [None], and every entry is the value that one of the source paths
    mapped to its key resolves to. *)
Theorem translate_dict_values (d : json) (attrs : list (string * string))
    (k : string) (v : json) :
  translate_dict d attrs !! k = Some v ->
  v <> JNull /\ exists src, (src, k) ∈ attrs /\ dict_path src d = v.
Proof.
  unfold translate_dict. intros H.
  apply translate_dict_fold_value in H as [H|H]; [|exact H].
  rewrite lookup_empty in H. discriminate.
Qed.

Lemma translate_dict_values_example :
  JBool true <> JNull
  /\ exists src, (src, "optIn") ∈ [("a.b", "optIn")]
                 /\ dict_path src (JDict {[ "a" := JDict {[ "b" := JBool true ]} ]})
                    = JBool true.
Proof.
  apply (translate_dict_values (JDict {[ "a" := JDict {[ "b" := JBool true ]} ]})
           [("a.b", "optIn")] "optIn" (JBool true)).
  reflexivity.
Defined.

Lemma translate_dict_fold_other (d : json) (attrs : list (string * string))
    (m : gmap string json) (k : string) :
  k ∉ attrs.*2 ->
  fold_left
    (fun (result : gmap string json) '(src, dest) =>
       let value := dict_path src d in
       if is_None value then result else <[dest := value]> result)
    attrs m !! k = m !! k.
Proof.
  revert m. induction attrs as [|[src dest] attrs IH]; intros m Hk; [reflexivity|].
  cbn [fold_left]. cbn in Hk. apply not_elem_of_cons in Hk as [Hne Hk].
  rewrite IH by exact Hk. cbv zeta.
  destruct (is_None (dict_path src d)); [reflexivity|].
  now rewrite lookup_insert_ne by congruence.
Qed.

Lemma translate_dict_fold_own (d : json) (attrs : list (string * string))
    (m : gmap string json) (src dest : string) :
  NoDup attrs.*2 ->
  (src, dest) ∈ attrs ->
  m !! dest = None ->
  fold_left
    (fun (result : gmap string json) '(src, dest) =>
       let value := dict_path src d in
       if is_None value then result else <[dest := value]> result)
    attrs m !! dest
  = if is_None (dict_path src d) then None else Some (dict_path src d).
Proof.
  revert m. induction attrs as [|[s0 d0] attrs IH]; intros m Hnd Hin Hm.
  - now apply elem_of_nil in Hin.
  - cbn in Hnd. apply NoDup_cons in Hnd as [Hd0 Hnd]. cbn [fold_left].
    apply elem_of_cons in Hin as [[= <- <-]|Hin].
    + rewrite translate_dict_fold_other by exact Hd0. cbv zeta.
      destruct (is_None (dict_path src d)); [exact Hm|apply lookup_insert_eq].
    + apply (IH _ Hnd Hin). cbv zeta.
      assert (d0 <> dest).
      { intros ->. apply Hd0. apply list_elem_of_fmap.
        exists (src, dest). split; [reflexivity|exact Hin]. }
      destruct (is_None (dict_path s0 d)); [exact Hm|].
      now rewrite lookup_insert_ne.
Qed.

(** X7.  When no destination key occurs twice in the mapping, each
    destination holds exactly the value of its own source path: it is
    absent when that path resolves to [None], and present with that value
    otherwise. *)
Theorem translate_dict_distinct_keys (d : json) (attrs : list (string * string))
    (src dest : string) :
  NoDup attrs.*2 ->
  (src, dest) ∈ attrs ->
  translate_dict d attrs !! dest
  = if is_None (dict_path src d) then None else Some (dict_path src d).
Proof.
  intros Hnd Hin. unfold translate_dict.
  apply translate_dict_fold_own; [exact Hnd|exact Hin|apply lookup_empty].
Qed.

Lemma translate_dict_distinct_keys_example :
  translate_dict (JDict {[ "a" := JInt 1 ]}) [("a", "x"); ("b", "y")] !! "y"
  = if is_None (dict_path "b" (JDict {[ "a" := JInt 1 ]})) then None
    else Some (dict_path "b" (JDict {[ "a" := JInt 1 ]})).
Proof.
  apply (translate_dict_distinct_keys (JDict {[ "a" := JInt 1 ]})
           [("a", "x"); ("b", "y")] "b" "y").
  - apply NoDup_cons. split.
    + intros H. apply list_elem_of_singleton in H. discriminate.
    + apply NoDup_singleton.
  - apply elem_of_cons. right. apply elem_of_cons. now left.
Defined.

(** ** [_import_statistics]: the fetch cursor *)

Lemma window_start_0 (start : datetime) : window_start start 0 = start.
Proof.
  destruct start as [u o]. unfold window_start, Datetime.add, hours. cbn.
  f_equal. lia.
Qed.

Lemma window_start_S (start : datetime) (i : nat) :
  window_start (Datetime.add start (hours 24)) i = window_start start (S i).
Proof.
  unfold window_start, Datetime.add, hours. cbn [utc_us utcoffset].
  f_equal. lia.
Qed.

Lemma loop_run_cursor (gc : datetime -> result Verbrauch) (now start : datetime)
    (sum_ : Decimal) (statistics : list StatisticData) (calls : list datetime) (o : outcome) :
  loop_run gc now start sum_ statistics calls o ->
  (forall i s, calls !! i = Some s ->
               s = window_start start i /\ Datetime.ltb s now = true)
  /\ (forall out, o = Imported out ->
                  Datetime.ltb (window_start start (List.length calls)) now = false).
Proof.
  induction 1 as [start sum_ statistics Hlt
                 |start sum_ statistics e Hlt Hget
                 |start sum_ statistics v0 Hlt Hget Hvs
                 |start sum_ statistics v0 vs calls o Hlt Hget Hvs Hskip Hrun IH
                 |start sum_ statistics v0 vs e Hlt Hget Hvs Hskip Hpv
                 |start sum_ statistics v0 vs Hlt Hget Hvs Hskip Hpv
                 |start sum_ statistics v0 vs st calls o Hlt Hget Hvs Hskip Hpv Hrun IH].
  - split; [intros [|i] s; discriminate|].
    intros _ _. cbn [List.length]. now rewrite window_start_0.
  - split; [|discriminate]. intros [|[|i]] s; try discriminate.
    intros [= <-]. now rewrite window_start_0.
  - split; [|discriminate]. intros [|[|i]] s; try discriminate.
    intros [= <-]. now rewrite window_start_0.
  - destruct IH as [IH1 IH2]. split.
    + intros [|i] s; cbn.
      * intros [= <-]. now rewrite window_start_0.
      * intros Hs. apply IH1 in Hs. now rewrite <- window_start_S.
    + intros out Ho. cbn [List.length]. rewrite <- window_start_S. eapply IH2, Ho.
  - split; [|discriminate]. intros [|[|i]] s; try discriminate.
    intros [= <-]. now rewrite window_start_0.
  - split; [|discriminate]. intros [|[|i]] s; try discriminate.
    intros [= <-]. now rewrite window_start_0.
  - destruct IH as [IH1 IH2]. split.
    + intros [|i] s; cbn.
      * intros [= <-]. now rewrite window_start_0.
      * intros Hs. apply IH1 in Hs. now rewrite <- window_start_S.
    + intros out Ho. cbn [List.length]. rewrite <- window_start_S. eapply IH2, Ho.
Qed.

(** X8.  The fetch cursor: the windows of a run start at the hour of
    [start] and then every 24 hours, whatever the windows hold (skipped
    windows advance it too); each fetched window starts before the hour of
    [now]; and a run that reaches [async_import_statistics] has fetched all
    of them: the next window would not start before [now]. *)
Theorem fetch_cursor_advances_by_24h
    (gc : datetime -> result Verbrauch) (now start : datetime) (sum_ : Decimal) :
  exists run,
    _import_statistics gc now (Aware start) sum_ = Some run
    /\ (forall i s,
          fetched run !! i = Some s ->
          s = window_start (replace_minute_second_microsecond_0 start) i
          /\ utc_us s < utc_us (replace_minute_second_microsecond_0 now))
    /\ (forall stats,
          result_of run = Imported stats ->
          utc_us (replace_minute_second_microsecond_0 now)
          <= utc_us (window_start (replace_minute_second_microsecond_0 start)
                       (List.length (fetched run)))).
Proof.
  destruct (import_statistics_run gc now start sum_) as (run & Hrun & Hloop).
  exists run. split; [exact Hrun|].
  apply loop_run_cursor in Hloop as [H1 H2]. split.
  - intros i s Hs. apply H1 in Hs as [-> Hlt]. split; [reflexivity|].
    now apply Z.ltb_lt in Hlt.
  - intros stats Hres. apply H2 in Hres. now apply Z.ltb_ge in Hres.
Qed.

(** ** [_import_statistics]: failures and provenance *)

Lemma loop_run_fetch_raises (gc : datetime -> result Verbrauch) (now start : datetime)
    (sum_ : Decimal) (statistics : list StatisticData) (calls : list datetime) (o : outcome) :
  loop_run gc now start sum_ statistics calls o ->
  forall s e, s ∈ calls -> gc s = Raise e -> o = Failed e /\ last calls = Some s.
Proof.
  induction 1 as [start sum_ statistics Hlt
                 |start sum_ statistics e Hlt Hget
                 |start sum_ statistics v0 Hlt Hget Hvs
                 |start sum_ statistics v0 vs calls o Hlt Hget Hvs Hskip Hrun IH
                 |start sum_ statistics v0 vs e Hlt Hget Hvs Hskip Hpv
                 |start sum_ statistics v0 vs Hlt Hget Hvs Hskip Hpv
                 |start sum_ statistics v0 vs st calls o Hlt Hget Hvs Hskip Hpv Hrun IH];
    intros s e' Hin Hs.
  - now apply elem_of_nil in Hin.
  - apply list_elem_of_singleton in Hin as ->. split; [congruence|reflexivity].
  - apply list_elem_of_singleton in Hin as ->. congruence.
  - apply elem_of_cons in Hin as [->|Hin]; [congruence|].
    destruct (IH s e' Hin Hs) as [-> Hlast]. split; [reflexivity|].
    destruct calls; [discriminate|]. now rewrite last_cons_cons.
  - apply list_elem_of_singleton in Hin as ->. congruence.
  - apply list_elem_of_singleton in Hin as ->. congruence.
  - apply elem_of_cons in Hin as [->|Hin]; [congruence|].
    destruct (IH s e' Hin Hs) as [-> Hlast]. split; [reflexivity|].
    destruct calls; [discriminate|]. now rewrite last_cons_cons.
Qed.

(** X9.  When [get_consumption] raises for a window of the run, the run
    ends with that very exception at that window: no later window is
    fetched and [async_import_statistics] is not called, whatever was
    collected before. *)
Theorem fetch_error_ends_the_run
    (gc : datetime -> result Verbrauch) (now : datetime) (start : pydatetime) (sum_ : Decimal) :
  exists run,
    _import_statistics gc now start sum_ = Some run
    /\ forall s e,
         s ∈ fetched run -> gc s = Raise e ->
         result_of run = Failed e /\ last (fetched run) = Some s.
Proof.
  destruct start as [start|wall].
  2:{ eexists. split; [reflexivity|]. cbn. intros s e Hin. now apply elem_of_nil in Hin. }
  destruct (import_statistics_run gc now start sum_) as (run & Hrun & Hloop).
  exists run. split; [exact Hrun|]. intros s e. eapply loop_run_fetch_raises, Hloop.
Qed.

(** The points that an importing run adds come from readings with a value
    of windows that were fetched and not skipped, and none is earlier than
    the start of its window. *)
Lemma nondecreasing_from_all (t : datetime) (l : list StatisticData) :
  nondecreasing_from t l -> Forall (fun p => utc_us t <= utc_us (stat_start p)) l.
Proof.
  revert t. induction l as [|p l IH]; intros t; [constructor|].
  intros [Hp Hl]. constructor; [exact Hp|].
  eapply Forall_impl; [apply IH, Hl|]. cbn. intros q Hq. lia.
Qed.

Lemma loop_run_provenance (gc : datetime -> result Verbrauch) (now start : datetime)
    (sum_ : Decimal) (statistics : list StatisticData) (calls : list datetime)
    (out : list StatisticData) :
  loop_run gc now start sum_ statistics calls (Imported out) ->
  exists added,
    out = statistics ++ added
    /\ Forall (fun p => exists s v vs,
                          s ∈ calls /\ gc s = Ok v /\ values v = Some vs
                          /\ skipped v = false /\ from_reading vs p
                          /\ utc_us s <= utc_us (stat_start p)) added.
Proof.
  remember (Imported out) as o eqn:Ho.
  induction 1 as [start sum_ statistics Hlt
                 |start sum_ statistics e Hlt Hget
                 |start sum_ statistics v0 Hlt Hget Hvs
                 |start sum_ statistics v0 vs calls o Hlt Hget Hvs Hskip Hrun IH
                 |start sum_ statistics v0 vs e Hlt Hget Hvs Hskip Hpv
                 |start sum_ statistics v0 vs Hlt Hget Hvs Hskip Hpv
                 |start sum_ statistics v0 vs st calls o Hlt Hget Hvs Hskip Hpv Hrun IH];
    try discriminate.
  - injection Ho as <-. exists []. rewrite app_nil_r. split; [reflexivity|constructor].
  - destruct (IH Ho) as (added & H1 & H2). exists added. split; [exact H1|].
    eapply Forall_impl; [exact H2|]. intros p (s & v & vs' & Hin & Hp).
    exists s, v, vs'. split; [apply elem_of_cons; now right|exact Hp].
  - destruct (IH Ho) as (added & H1 & H2).
    apply process_values_next in Hpv as (new & N1 & _ & _ & N4 & _ & N6 & _).
    cbn [Sensor.statistics Sensor.last_ts] in *.
    exists (new ++ added). split; [rewrite H1, N1; now rewrite app_assoc|].
    apply Forall_app. split.
    + apply nondecreasing_from_all in N4.
      rewrite Forall_forall in N4, N6. apply Forall_forall. intros p Hp.
      exists start, v0, vs. split; [apply elem_of_cons; now left|]. auto 6.
    + eapply Forall_impl; [exact H2|]. intros p (s & v & vs' & Hin & Hp).
      exists s, v, vs'. split; [apply elem_of_cons; now right|exact Hp].
Qed.

(** X10.  Nothing is made up: every point that a run hands to the recorder
    has the timestamp and the usage of a reading with a value, found in a
    window that the run fetched and did not skip (opt-in set, not both
    consumption bounds zero), and it is not earlier than the start of that
    window. *)
Theorem imported_points_come_from_readings
    (gc : datetime -> result Verbrauch) (now : datetime) (start : pydatetime) (sum_ : Decimal) :
  exists run,
    _import_statistics gc now start sum_ = Some run
    /\ forall stats,
         result_of run = Imported stats ->
         Forall (fun p => exists s v vs r raw,
                            s ∈ fetched run /\ gc s = Ok v /\ values v = Some vs
                            /\ skipped v = false
                            /\ r ∈ vs /\ value r = Some raw
                            /\ stat_start p = timestamp r
                            /\ usage_of raw = Ok (stat_state p)
                            /\ utc_us s <= utc_us (stat_start p)) stats.
Proof.
  destruct start as [start|wall]; [|eexists; split; [reflexivity|discriminate]].
  destruct (import_statistics_run gc now start sum_) as (run & Hrun & Hloop).
  exists run. split; [exact Hrun|]. intros stats Hres. rewrite Hres in Hloop.
  apply loop_run_provenance in Hloop as (added & -> & H). cbn [app].
  eapply Forall_impl; [exact H|].
  intros p (s & v & vs & Hin & Hs & Hvs & Hns & (r & raw & Hr & Hval & Hts & Hu) & Hle).
  exists s, v, vs, r, raw. auto 10.
Qed.

Lemma loop_run_not_before_start (gc : datetime -> result Verbrauch) (now start : datetime)
    (sum_ : Decimal) (calls : list datetime) (out : list StatisticData) :
  loop_run gc now start sum_ [] calls (Imported out) ->
  Forall (fun p => utc_us start <= utc_us (stat_start p)) out.
Proof.
  intros Hloop. destruct (loop_run_cursor _ _ _ _ _ _ _ Hloop) as [Hcur _].
  apply loop_run_provenance in Hloop as (added & -> & H). cbn [app].
  eapply Forall_impl; [exact H|].
  intros p (s & v & vs & Hin & _ & _ & _ & _ & Hle).
  apply list_elem_of_lookup in Hin as [i Hi]. apply Hcur in Hi as [-> _].
  unfold window_start, Datetime.add, hours in Hle. cbn [utc_us] in Hle. lia.
Qed.

(** X11.  A run never hands over a point that is earlier than the hour of
    its [start]: what lies before the resume point is not imported again. *)
Theorem imported_points_not_before_start
    (gc : datetime -> result Verbrauch) (now start : datetime) (sum_ : Decimal) :
  exists run,
    _import_statistics gc now (Aware start) sum_ = Some run
    /\ forall stats,
         result_of run = Imported stats ->
         Forall (fun p => utc_us (replace_minute_second_microsecond_0 start)
                          <= utc_us (stat_start p)) stats.
Proof.
  destruct (import_statistics_run gc now start sum_) as (run & Hrun & Hloop).
  exists run. split; [exact Hrun|]. intros stats Hres. rewrite Hres in Hloop.
  eapply loop_run_not_before_start, Hloop.
Qed.

Lemma loop_run_all_skipped (gc : datetime -> result Verbrauch) (now start : datetime)
    (sum_ : Decimal) (statistics : list StatisticData) (calls : list datetime) (o : outcome) :
  loop_run gc now start sum_ statistics calls o ->
  (forall s, s ∈ calls ->
             exists v vs, gc s = Ok v /\ values v = Some vs /\ skipped v = true) ->
  o = Imported statistics.
Proof.
  induction 1 as [start sum_ statistics Hlt
                 |start sum_ statistics e Hlt Hget
                 |start sum_ statistics v0 Hlt Hget Hvs
                 |start sum_ statistics v0 vs calls o Hlt Hget Hvs Hskip Hrun IH
                 |start sum_ statistics v0 vs e Hlt Hget Hvs Hskip Hpv
                 |start sum_ statistics v0 vs Hlt Hget Hvs Hskip Hpv
                 |start sum_ statistics v0 vs st calls o Hlt Hget Hvs Hskip Hpv Hrun IH];
    intros Hall;
    try (destruct (Hall start) as (v & vs' & Hv & Hvs' & Hsk);
         [apply elem_of_cons; now left|congruence]).
  - reflexivity.
  - apply IH. intros s Hs. apply Hall, elem_of_cons. now right.
Qed.

(** X12.  When every window that a run fetches is skipped (opt-in not set,
    or both consumption bounds zero), the run still ends by calling
    [async_import_statistics], with an empty list. *)
Theorem skipped_windows_import_the_empty_list
    (gc : datetime -> result Verbrauch) (now start : datetime) (sum_ : Decimal) :
  exists run,
    _import_statistics gc now (Aware start) sum_ = Some run
    /\ ((forall s, s ∈ fetched run ->
                   exists v vs, gc s = Ok v /\ values v = Some vs /\ skipped v = true) ->
        result_of run = Imported []).
Proof.
  destruct (import_statistics_run gc now start sum_) as (run & Hrun & Hloop).
  exists run. split; [exact Hrun|]. eapply loop_run_all_skipped, Hloop.
Qed.

(** ** The readings of a well-formed window *)

(** X13.  A window whose readings are all aligned to the hour, all have a
    value and come in order (none before [last_ts], none before the one in
    front of it) is imported completely: unless the arithmetic raises, the
    loop adds exactly one point per reading, in the order of the readings
    and with their timestamps, and it never returns early. *)
Theorem ordered_window_gives_one_point_per_reading (vs : list Reading) (st : Acc) :
  in_order (last_ts st) vs ->
  (exists e, process_values vs st = Raise e)
  \/ (exists st' new,
        process_values vs st = Ok (Next st')
        /\ statistics st' = statistics st ++ new
        /\ map stat_start new = map timestamp vs).
Proof.
  revert st. induction vs as [|v vs IH]; intros st Hord.
  - right. exists st, []. rewrite app_nil_r. repeat split.
  - destruct Hord as (Hmin & Hle & Hval & Hord).
    cbn [process_values]. unfold process_reading.
    apply Z.eqb_eq in Hmin. rewrite Hmin. cbn [negb].
    assert (Hlt : Datetime.ltb (timestamp v) (last_ts st) = false)
      by (apply Z.ltb_ge; exact Hle).
    rewrite Hlt. destruct (value v) as [raw|]; [|congruence].
    destruct (usage_of raw) as [usage|e]; cbn; [|left; eauto].
    destruct (Decimal_add (sum_ st) usage) as [s|e]; cbn; [|left; eauto].
    match goal with
    | |- context [process_values vs ?st1] => destruct (IH st1 Hord) as [[e He]|(st' & new & Hpv & Hst & Hts)]
    end.
    + left. eauto.
    + right. exists st'. eexists (_ :: new). split; [exact Hpv|].
      cbn [statistics] in Hst. rewrite Hst, <- app_assoc. split; [reflexivity|].
      cbn. now rewrite Hts.
Qed.

Lemma five_readings_give_five_points :
  (exists e,
     process_values Scenarios.five_readings
       {| last_ts := Scenarios.t0; sum_ := DFinite 0 0; statistics := [] |} = Raise e)
  \/ (exists st' new,
        process_values Scenarios.five_readings
          {| last_ts := Scenarios.t0; sum_ := DFinite 0 0; statistics := [] |}
        = Ok (Next st')
        /\ statistics st' = [] ++ new
        /\ map stat_start new = map timestamp Scenarios.five_readings).
Proof.
  apply (ordered_window_gives_one_point_per_reading Scenarios.five_readings
           {| last_ts := Scenarios.t0; sum_ := DFinite 0 0; statistics := [] |}).
  cbn. repeat split; try discriminate; vm_compute; discriminate.
Defined.

(** ** The usage of a reading: sign and exceptions *)

Lemma float_of_int_sign (z : Z) (f : spec_float) :
  float_of_int z = Ok f ->
  signed (z <? 0) f /\ forall s, f <> S754_infinity s.
Proof.
  unfold float_of_int, binary_normalize.
  destruct z as [|p|p]; cbn [Z.ltb Z.compare].
  - intros [= <-]. split; [reflexivity|discriminate].
  - unfold binary_round. destruct (shl_align p 0 _) as [mz ez].
    pose proof (binary_round_aux_signed false (Zpos mz) ez loc_Exact ltac:(lia)) as Hs.
    destruct (binary_round_aux prec emax false (Zpos mz) ez loc_Exact) as [s|s|  |s m e];
      try discriminate; intros [= <-]; (split; [exact Hs|discriminate]).
  - unfold binary_round. destruct (shl_align p 0 _) as [mz ez].
    pose proof (binary_round_aux_signed true (Zpos mz) ez loc_Exact ltac:(lia)) as Hs.
    destruct (binary_round_aux prec emax true (Zpos mz) ez loc_Exact) as [s|s|  |s m e];
      try discriminate; intros [= <-]; (split; [exact Hs|discriminate]).
Qed.

Lemma div_1000_sign (sx : bool) (x : spec_float) :
  signed sx x -> (forall s, x <> S754_infinity s) ->
  signed sx (SFdiv prec emax x float_1000).
Proof.
  destruct x as [s|s| |s m e]; cbn [signed]; try tauto.
  - intros -> _. cbn. now destruct sx.
  - intros _ H. now destruct (H s).
  - intros -> _. unfold SFdiv, float_1000.
    destruct (SFdiv_core_binary prec emax (Z.pos m) e 8796093022208000 (-43))
      as [[mz ez] lz] eqn:Hcore.
    replace (xorb sx false) with sx by now destruct sx.
    apply binary_round_aux_signed.
    unfold SFdiv_core_binary in Hcore.
    match type of Hcore with
    | (let '(q, r) := Z.div_eucl ?a ?b in _) = _ =>
        pose proof (Z_div_mod a b ltac:(lia)) as Hdm;
        assert (Ha : 0 <= a);
        [|destruct (Z.div_eucl a b) as [q r]]
    end.
    { destruct (_ - _ - _) as [|p|p]; [lia| |lia].
      apply Z.shiftl_nonneg. lia. }
    injection Hcore as <- _ _. nia.
Qed.

Lemma Decimal_of_float_not_NaN (sx : bool) (f : spec_float) :
  signed sx f -> Decimal_of_float f <> DNaN.
Proof.
  destruct f as [s|s| |s m e]; cbn [signed]; try tauto; try discriminate.
  intros _. unfold Decimal_of_float. destruct (0 <=? e); [discriminate|].
  destruct (reduce2 m _). discriminate.
Qed.

(** X14.  [Decimal(v['value'] / 1000.0)] for an [int] value can only raise
    [OverflowError] (the value is too large for a [float]); when it
    returns, the usage is never NaN, and it is not negative when the raw
    value is not negative. *)
Theorem usage_sign_and_errors (raw : Z) :
  (forall e, usage_of raw = Raise e -> e = OverflowError)
  /\ (forall u, usage_of raw = Ok u ->
                u <> DNaN /\ (0 <= raw -> nonnegative u)).
Proof.
  split.
  - intros e. unfold usage_of, int_truediv, float_of_int.
    destruct (binary_normalize prec emax raw 0 false); cbn; congruence.
  - intros u Hu. split; [|intros Hraw; now apply (usage_of_nonnegative raw)].
    unfold usage_of, int_truediv in Hu.
    destruct (float_of_int raw) as [x|e] eqn:Hx; cbn in Hu; [|discriminate].
    injection Hu as <-. apply float_of_int_sign in Hx as [Hs Hinf].
    eapply Decimal_of_float_not_NaN, div_1000_sign; eassumption.
Qed.

(** ** [async_update]: when the API is called *)

Lemma async_update_ends (w : World) : exists u, async_update w = Some u.
Proof.
  unfold async_update.
  destruct (resume_decision w) as [[start _sum|]|e]; [|eauto|eauto].
  destruct (login w) as [[]|e]; [|eauto].
  destruct (get_zaehlpunkt w) as [zp|e]; [|eauto].
  destruct (negb (truthy (is_active zp))); [eauto|].
  destruct (import_statistics_ends (get_consumption w) (now_utc (clock_import w)) start _sum)
    as [run Hrun].
  rewrite Hrun. cbn. eauto.
Qed.

(** The only way to [Proceed]: one row for the sensor, ending at an aware
    datetime more than 24 hours ago. *)
Lemma resume_Proceed_inv (w : World) (start : pydatetime) (_sum : Decimal) :
  resume_decision w = Ok (Proceed start _sum) ->
  exists row last_end,
    size (last_inserted_stat w) = 1%nat
    /\ last_inserted_stat w !! self_id w = Some [row]
    /\ coerce_end (row_end row) = Some (Aware last_end)
    /\ start = Aware last_end
    /\ _sum = row_sum row
    /\ hours 24 < clock_delta_t w - utc_us last_end.
Proof.
  unfold resume_decision.
  destruct (Nat.eqb (size (last_inserted_stat w)) 0) eqn:Hsize0; cbn; [discriminate|].
  destruct (last_inserted_stat w !! self_id w) as [rows|] eqn:Hrows; cbn; [|discriminate].
  destruct rows as [|row [|row2 rows]]; cbn; try discriminate.
  destruct (Nat.eqb (size (last_inserted_stat w)) 1) eqn:Hsize1; [|discriminate].
  destruct (coerce_end (row_end row)) as [[last_end|wall]|] eqn:Hend; try discriminate.
  destruct (Z.leb_spec
              (Datetime.sub (replace_microsecond_0 (now_utc (clock_delta_t w)))
                            (replace_microsecond_0 last_end))
              (hours 24)) as [|Hgt]; [discriminate|].
  intros [= <- <-]. exists row, last_end.
  apply Nat.eqb_eq in Hsize1. repeat split; try assumption; try reflexivity.
  unfold Datetime.sub in Hgt. rewrite !replace_microsecond_0_utc in Hgt.
  cbn [now_utc utc_us] in Hgt. unfold hours in *.
  pose proof (Z.div_mod (clock_delta_t w) 1000000 ltac:(lia)).
  pose proof (Z.mod_pos_bound (clock_delta_t w) 1000000 ltac:(lia)).
  pose proof (Z.div_mod (utc_us last_end) 1000000 ltac:(lia)).
  pose proof (Z.mod_pos_bound (utc_us last_end) 1000000 ltac:(lia)).
  lia.
Qed.

Lemma async_update_calls_inv (w : World) (u : Update) :
  async_update w = Some u ->
  calls u = []
  \/ exists start _sum,
       resume_decision w = Ok (Proceed start _sum)
       /\ (calls u = [CallLogin]
           \/ exists starts, calls u = CallLogin :: CallZaehlpunkte :: map CallVerbrauch starts
                /\ login w = Ok tt
                /\ (starts = []
                    \/ exists zp, get_zaehlpunkt w = Ok zp /\ truthy (is_active zp) = true)).
Proof.
  unfold async_update.
  destruct (resume_decision w) as [[start _sum|]|e];
    [|intros [= <-]; now left|intros [= <-]; now left].
  intros H. right. exists start, _sum. split; [reflexivity|].
  destruct (login w) as [[]|e].
  2:{ injection H as <-. left. now destruct e. }
  right. destruct (get_zaehlpunkt w) as [zp|e].
  2:{ injection H as <-. exists []. split; [now destruct e|]. split; [reflexivity|now left]. }
  destruct (truthy (is_active zp)) eqn:Hact; cbn [negb] in H.
  2:{ injection H as <-. exists []. split; [reflexivity|]. split; [reflexivity|now left]. }
  destruct (_import_statistics _ _ _ _) as [run|]; cbn in H; [|discriminate].
  injection H as <-. exists (fetched run).
  split; [destruct (result_of run) as [stats| |e]; try reflexivity; now destruct e|].
  split; [reflexivity|]. right. eauto.
Qed.

(** X15.  [async_update] contacts the API (login included) only when the
    recorder returned exactly one statistic with exactly one row for the
    sensor, the end of that row is a timezone-aware datetime, and more than
    24 hours have passed since that end. *)
Theorem api_is_called_only_after_24h (w : World) :
  exists u,
    async_update w = Some u
    /\ (calls u <> [] ->
        exists row last_end,
          size (last_inserted_stat w) = 1%nat
          /\ last_inserted_stat w !! self_id w = Some [row]
          /\ coerce_end (row_end row) = Some (Aware last_end)
          /\ hours 24 < clock_delta_t w - utc_us last_end).
Proof.
  destruct (async_update_ends w) as [u Hu]. exists u. split; [exact Hu|].
  intros Hcalls. apply async_update_calls_inv in Hu as [Hnil|(start & _sum & Hres & _)];
    [congruence|].
  apply resume_Proceed_inv in Hres as (row & last_end & H1 & H2 & H3 & _ & _ & H4).
  exists row, last_end. auto.
Qed.

(** X16.  The order of the calls: a consumption window is fetched only
    after the login and the zaehlpunkt lookup, both of which succeeded, and
    only for a meter that [is_active] accepts; nothing else is called in
    between. *)
Theorem consumption_is_fetched_only_for_an_active_meter (w : World) :
  exists u,
    async_update w = Some u
    /\ forall s,
         CallVerbrauch s ∈ calls u ->
         login w = Ok tt
         /\ (exists zp, get_zaehlpunkt w = Ok zp /\ truthy (is_active zp) = true)
         /\ exists starts,
              calls u = CallLogin :: CallZaehlpunkte :: map CallVerbrauch starts
              /\ s ∈ starts.
Proof.
  destruct (async_update_ends w) as [u Hu]. exists u. split; [exact Hu|].
  intros s Hs.
  apply async_update_calls_inv in Hu
    as [Hnil|(start & _sum & _ & [Hone|(starts & Hcalls & Hlogin & Hrest)])].
  - rewrite Hnil in Hs. now apply elem_of_nil in Hs.
  - rewrite Hone in Hs. apply list_elem_of_singleton in Hs. discriminate.
  - rewrite Hcalls in Hs.
    apply elem_of_cons in Hs as [[=]|Hs]. apply elem_of_cons in Hs as [[=]|Hs].
    apply list_elem_of_fmap in Hs as (s' & [= <-] & Hin).
    destruct Hrest as [->|Hzp]; [now apply elem_of_nil in Hin|].
    split; [exact Hlogin|]. split; [exact Hzp|]. eauto.
Qed.

(** X17.  The [try] block of [async_update] absorbs [RuntimeError]: it
    never leaves the function (the sensor becomes unavailable instead);
    the sensor is unavailable only without an exception and without an
    import; and whenever something was imported the sensor is available and
    no exception was raised. *)
Theorem runtime_error_never_leaves_async_update (w : World) :
  exists u,
    async_update w = Some u
    /\ raised u <> Some RuntimeError
    /\ (available u = false -> raised u = None /\ imported u = None)
    /\ (forall stats, imported u = Some stats -> available u = true /\ raised u = None).
Proof.
  destruct (async_update_ends w) as [u Hu]. exists u. split; [exact Hu|].
  unfold async_update in Hu.
  assert (Hhandled : forall cs e,
             raised (handled cs e) <> Some RuntimeError
             /\ (available (handled cs e) = false ->
                 raised (handled cs e) = None /\ imported (handled cs e) = None)
             /\ (forall stats, imported (handled cs e) = Some stats ->
                               available (handled cs e) = true /\ raised (handled cs e) = None))
    by (intros cs []; cbn; repeat split; congruence).
  destruct (resume_decision w) as [[start _sum|]|e] eqn:Hres.
  - destruct (login w) as [[]|e]; [|injection Hu as <-; apply Hhandled].
    destruct (get_zaehlpunkt w) as [zp|e]; [|injection Hu as <-; apply Hhandled].
    destruct (negb (truthy (is_active zp))).
    { injection Hu as <-. cbn. repeat split; congruence. }
    destruct (_import_statistics _ _ _ _) as [run|]; cbn in Hu; [|discriminate].
    injection Hu as <-. destruct (result_of run) as [stats| |e]; [| |apply Hhandled];
      cbn; repeat split; congruence.
  - injection Hu as <-. cbn. repeat split; congruence.
  - injection Hu as <-. cbn. split; [|repeat split; congruence].
    intros [= ->]. unfold resume_decision in Hres.
    destruct (Nat.eqb (size (last_inserted_stat w)) 0); cbn in Hres; [discriminate|].
    destruct (last_inserted_stat w !! self_id w) as [rows|]; cbn in Hres; [|discriminate].
    destruct rows as [|row [|row2 rows]]; cbn in Hres; try discriminate.
    destruct (Nat.eqb (size (last_inserted_stat w)) 1); [|discriminate].
    destruct (coerce_end (row_end row)) as [[last_end|wall]|]; try discriminate.
    destruct (_ <=? _); discriminate.
Qed.

(** ** [async_update]: the answer of the recorder *)

(** X18.  When the recorder answers with more than one row for the sensor,
    or with rows for the sensor among several statistics, [async_update]
    only logs: it returns without any call of the API, without an
    exception, and the sensor stays available. *)
Theorem unexpected_answer_returns_without_api_call (w : World) (rows : list StatRow) :
  last_inserted_stat w !! self_id w = Some rows ->
  (2 <= List.length rows)%nat \/ (rows <> [] /\ (2 <= size (last_inserted_stat w))%nat) ->
  resume_decision w = Ok Leave
  /\ async_update w = Some {| available := true; calls := []; imported := None;
                              raised := None |}.
Proof.
  intros Hrows Hshape.
  assert (Hr : resume_decision w = Ok Leave).
  { unfold resume_decision. rewrite Hrows.
    assert (Hne : size (last_inserted_stat w) <> 0%nat).
    { intros E. apply map_size_empty_iff in E. rewrite E, lookup_empty in Hrows.
      discriminate. }
    apply Nat.eqb_neq in Hne. rewrite Hne. cbn.
    destruct rows as [|row [|row2 rows]]; cbn in *.
    - destruct Hshape as [?|[? _]]; [lia|congruence].
    - destruct Hshape as [?|[_ Hsize]]; [lia|].
      assert (E : Nat.eqb (size (last_inserted_stat w)) 1 = false)
        by (apply Nat.eqb_neq; lia).
      now rewrite E.
    - reflexivity. }
  split; [exact Hr|]. unfold async_update. now rewrite Hr.
Qed.

Lemma two_rows_return :
  resume_decision ScenariosMore.two_rows_world = Ok Leave
  /\ async_update ScenariosMore.two_rows_world
     = Some {| available := true; calls := []; imported := None; raised := None |}.
Proof.
  apply (unexpected_answer_returns_without_api_call ScenariosMore.two_rows_world
           [{| row_end := EndNumber (utc_us Scenarios.t0); row_sum := DFinite 0 0 |};
            {| row_end := EndNumber (utc_us Scenarios.t0); row_sum := DFinite 5 (-1) |}]).
  - reflexivity.
  - left. cbn. lia.
Defined.

(** X19.  When the recorder's answer is not empty but has no entry for the
    sensor's statistic id, [last_inserted_stat[self._id]] raises
    [KeyError], which leaves [async_update] before any call of the API. *)
Theorem missing_statistic_id_raises_KeyError (w : World) :
  last_inserted_stat w <> ∅ ->
  last_inserted_stat w !! self_id w = None ->
  resume_decision w = Raise KeyError
  /\ async_update w = Some {| available := true; calls := []; imported := None;
                              raised := Some KeyError |}.
Proof.
  intros Hne Hnone.
  assert (Hr : resume_decision w = Raise KeyError).
  { unfold resume_decision. rewrite Hnone.
    assert (Hsize : size (last_inserted_stat w) <> 0%nat)
      by (intros E; now apply map_size_empty_iff in E).
    apply Nat.eqb_neq in Hsize. now rewrite Hsize. }
  split; [exact Hr|]. unfold async_update. now rewrite Hr.
Qed.

Lemma other_statistic_id_raises :
  resume_decision ScenariosMore.other_id_world = Raise KeyError
  /\ async_update ScenariosMore.other_id_world
     = Some {| available := true; calls := []; imported := None; raised := Some KeyError |}.
Proof.
  apply (missing_statistic_id_raises_KeyError ScenariosMore.other_id_world).
  - intros E. apply (f_equal (fun m => m !! "sensor.other")) in E. discriminate E.
  - reflexivity.
Defined.

(** X20.  One row for the sensor whose end is an [int], [float], [str] or
    [datetime] that does not give an aware datetime: when it gives no
    datetime at all, [async_update] logs and returns; when it gives a naive
    datetime, the subtraction from the aware [now] raises [TypeError].  In
    both cases the API is not called. *)
Theorem end_without_timezone_stops_the_update (w : World) (row : StatRow) :
  last_inserted_stat w = {[ self_id w := [row] ]} ->
  (coerce_end (row_end row) = None ->
   async_update w = Some {| available := true; calls := []; imported := None;
                            raised := None |})
  /\ (forall wall, coerce_end (row_end row) = Some (Naive wall) ->
      async_update w = Some {| available := true; calls := []; imported := None;
                               raised := Some TypeError |}).
Proof.
  intros Hstat.
  assert (Hr : resume_decision w
               = match coerce_end (row_end row) with
                 | None => Ok Leave
                 | Some (Naive _) => Raise TypeError
                 | Some (Aware start) =>
                     if Datetime.sub (replace_microsecond_0 (now_utc (clock_delta_t w)))
                                     (replace_microsecond_0 start) <=? hours 24
                     then Ok Leave else Ok (Proceed (Aware start) (row_sum row))
                 end).
  { unfold resume_decision. rewrite Hstat, map_size_singleton, lookup_singleton_eq.
    reflexivity. }
  unfold async_update. rewrite Hr. split.
  - intros ->. reflexivity.
  - intros wall ->. reflexivity.
Qed.

Lemma unreadable_and_naive_end :
  async_update (Scenarios.warm_world (EndStr None) ∅)
  = Some {| available := true; calls := []; imported := None; raised := None |}
  /\ async_update (Scenarios.warm_world (EndDatetime (Naive 0)) ∅)
     = Some {| available := true; calls := []; imported := None; raised := Some TypeError |}.
Proof.
  split.
  - exact (proj1 (end_without_timezone_stops_the_update
                    (Scenarios.warm_world (EndStr None) ∅)
                    {| row_end := EndStr None; row_sum := DFinite 0 0 |} eq_refl)
                 eq_refl).
  - exact (proj2 (end_without_timezone_stops_the_update
                    (Scenarios.warm_world (EndDatetime (Naive 0)) ∅)
                    {| row_end := EndDatetime (Naive 0); row_sum := DFinite 0 0 |} eq_refl)
                 0 eq_refl).
Defined.

(** X21.  Resuming: whenever [async_update] imports, the recorder had one
    row for the sensor; the sums of the imported points chain from the sum
    of that row, no imported point is earlier than the hour of the row's
    end, and the sensor is available. *)
Theorem resumed_import_continues_the_last_row (w : World) :
  exists u,
    async_update w = Some u
    /\ forall stats,
         imported u = Some stats ->
         exists row last_end,
           last_inserted_stat w !! self_id w = Some [row]
           /\ coerce_end (row_end row) = Some (Aware last_end)
           /\ sum_chain (row_sum row) stats
           /\ Forall (fun p => utc_us (replace_minute_second_microsecond_0 last_end)
                               <= utc_us (stat_start p)) stats
           /\ available u = true.
Proof.
  destruct (async_update_ends w) as [u Hu]. exists u. split; [exact Hu|].
  intros stats Hstats. unfold async_update in Hu.
  destruct (resume_decision w) as [[start _sum|]|e] eqn:Hres;
    [|injection Hu as <-; discriminate|injection Hu as <-; discriminate].
  apply resume_Proceed_inv in Hres as (row & last_end & _ & Hrow & Hend & -> & -> & _).
  exists row, last_end. split; [exact Hrow|]. split; [exact Hend|].
  destruct (login w) as [[]|e]; [|injection Hu as <-; now destruct e].
  destruct (get_zaehlpunkt w) as [zp|e]; [|injection Hu as <-; now destruct e].
  destruct (negb (truthy (is_active zp))); [injection Hu as <-; discriminate|].
  destruct (import_statistics_run (get_consumption w) (now_utc (clock_import w))
              last_end (row_sum row)) as (run & Hrun & Hloop).
  rewrite Hrun in Hu. cbn in Hu. injection Hu as <-.
  destruct (result_of run) as [out| |e]; [|discriminate|now destruct e].
  cbn in Hstats. injection Hstats as ->. cbn [available].
  split; [|split; [eapply loop_run_not_before_start, Hloop|reflexivity]].
  apply loop_run_imported in Hloop as (blocks & -> & _ & Hchain & _). exact Hchain.
Qed.

(** ** [get_zaehlpunkt], [get_consumption], [get_welcome] *)

Lemma filterM_numbered (zaehlpunkt : string) (items : list json) :
  Forall SensorApi.numbered items ->
  SensorApi.filterM
    (fun z => Py.bind (getitem z (AStr "zaehlpunktnummer")) (fun nr =>
              Ok (SensorApi.eq_str nr zaehlpunkt))) items
  = Ok (List.filter (SensorApi.has_number zaehlpunkt) items).
Proof.
  induction 1 as [|z items (m & nr & -> & Hnr) _ IH]; [reflexivity|].
  cbn [SensorApi.filterM List.filter]. rewrite IH. cbn. rewrite Hnr. cbn.
  destruct (SensorApi.eq_str nr zaehlpunkt); reflexivity.
Qed.

(** X22.  On an answer of the expected shape (a non-empty list whose first
    element has a list ["zaehlpunkte"] of dicts that all have a
    ["zaehlpunktnummer"]), [get_zaehlpunkt] translates the first entry with
    the sensor's number and ignores later ones and the other elements of
    the answer; without such an entry it raises [RuntimeError]. *)
Theorem get_zaehlpunkt_takes_the_first_match
    (attrs : list (string * string)) (zaehlpunkt : string)
    (first : gmap string json) (others items : list json) :
  SensorApi.contains "Exception" (JList (JDict first :: others)) = Ok false ->
  first !! "zaehlpunkte" = Some (JList items) ->
  Forall SensorApi.numbered items ->
  SensorApi.get_zaehlpunkt attrs zaehlpunkt (JList (JDict first :: others))
  = match List.find (SensorApi.has_number zaehlpunkt) items with
    | Some z => Ok (Some (translate_dict z attrs))
    | None => Raise RuntimeError
    end.
Proof.
  intros Hexc Hfirst Hitems. unfold SensorApi.get_zaehlpunkt.
  assert (Hz : getitem (JDict first) (AStr "zaehlpunkte") = Ok (JList items))
    by (cbn [getitem]; now rewrite Hfirst).
  rewrite Hexc. cbn [Py.bind is_None SensorApi.len List.length Nat.eqb].
  change (getitem (JList (JDict first :: others)) (AInt 0)) with (Ok (JDict first)).
  cbn [Py.bind]. rewrite Hz. cbn [Py.bind SensorApi.iterate].
  rewrite (filterM_numbered zaehlpunkt items Hitems). cbn [Py.bind].
  clear Hfirst Hz Hitems. induction items as [|z items IH]; [reflexivity|].
  cbn [List.filter List.find].
  destruct (SensorApi.has_number zaehlpunkt z); [reflexivity|]. exact IH.
Qed.

Lemma get_zaehlpunkt_example :
  SensorApi.get_zaehlpunkt [("zaehlpunktnummer", "nr"); ("isActive", "active")] "AT2"
    (JList [JDict {[ "zaehlpunkte" :=
                       JList [JDict (<["zaehlpunktnummer" := JStr "AT1"]> ∅);
                              JDict (<["zaehlpunktnummer" := JStr "AT2"]>
                                       (<["isActive" := JBool true]> ∅));
                              JDict (<["zaehlpunktnummer" := JStr "AT2"]> ∅)] ]}])
  = match List.find (SensorApi.has_number "AT2")
            [JDict (<["zaehlpunktnummer" := JStr "AT1"]> ∅);
             JDict (<["zaehlpunktnummer" := JStr "AT2"]> (<["isActive" := JBool true]> ∅));
             JDict (<["zaehlpunktnummer" := JStr "AT2"]> ∅)] with
    | Some z => Ok (Some (translate_dict z [("zaehlpunktnummer", "nr"); ("isActive", "active")]))
    | None => Raise RuntimeError
    end.
Proof.
  apply (get_zaehlpunkt_takes_the_first_match
           [("zaehlpunktnummer", "nr"); ("isActive", "active")] "AT2"
           {[ "zaehlpunkte" :=
                JList [JDict (<["zaehlpunktnummer" := JStr "AT1"]> ∅);
                       JDict (<["zaehlpunktnummer" := JStr "AT2"]>
                                (<["isActive" := JBool true]> ∅));
                       JDict (<["zaehlpunktnummer" := JStr "AT2"]> ∅)] ]} []).
  - reflexivity.
  - reflexivity.
  - repeat constructor; eexists _, _; (split; [reflexivity|reflexivity]).
Defined.

Lemma filterM_elements {A} (p : A -> result bool) (l zp : list A) :
  SensorApi.filterM p l = Ok zp -> forall z, z ∈ zp -> z ∈ l /\ p z = Ok true.
Proof.
  revert zp. induction l as [|x l IH]; intros zp.
  - intros [= <-] z Hz. now apply elem_of_nil in Hz.
  - cbn [SensorApi.filterM]. destruct (p x) as [b|] eqn:Hp; cbn; [|discriminate].
    destruct (SensorApi.filterM p l) as [rest|]; cbn; [|discriminate].
    intros [= <-] z Hz. destruct b.
    + apply elem_of_cons in Hz as [->|Hz].
      * split; [apply elem_of_cons; now left|exact Hp].
      * destruct (IH rest eq_refl z Hz). split; [apply elem_of_cons; now right|assumption].
    + destruct (IH rest eq_refl z Hz). split; [apply elem_of_cons; now right|assumption].
Qed.

(** X23.  [get_zaehlpunkt] never returns [None]: whenever it returns, the
    answer did not contain ["Exception"], and the result is the translation
    of an entry of [zps[0]["zaehlpunkte"]] whose ["zaehlpunktnummer"] is the
    sensor's number. *)
Theorem get_zaehlpunkt_never_returns_None
    (attrs : list (string * string)) (zaehlpunkt : string) (zps : json)
    (r : option (gmap string json)) :
  SensorApi.get_zaehlpunkt attrs zaehlpunkt zps = Ok r ->
  SensorApi.contains "Exception" zps = Ok false
  /\ exists first zaehlpunkte items z nr,
       getitem zps (AInt 0) = Ok first
       /\ getitem first (AStr "zaehlpunkte") = Ok zaehlpunkte
       /\ SensorApi.iterate zaehlpunkte = Ok items
       /\ z ∈ items
       /\ getitem z (AStr "zaehlpunktnummer") = Ok nr
       /\ SensorApi.eq_str nr zaehlpunkt = true
       /\ r = Some (translate_dict z attrs).
Proof.
  unfold SensorApi.get_zaehlpunkt.
  destruct (SensorApi.contains "Exception" zps) as [[|]|] eqn:Hexc; cbn; try discriminate.
  destruct (is_None zps); cbn; [discriminate|].
  destruct (SensorApi.len zps) as [n|]; cbn; [|discriminate].
  destruct (Nat.eqb n 0); [discriminate|].
  destruct (getitem zps (AInt 0)) as [first|] eqn:Hfirst; cbn; [|discriminate].
  destruct (getitem first (AStr "zaehlpunkte")) as [zaehlpunkte|] eqn:Hz; cbn; [|discriminate].
  destruct (SensorApi.iterate zaehlpunkte) as [items|] eqn:Hitems; cbn; [|discriminate].
  destruct (SensorApi.filterM _ items) as [[|z zp]|] eqn:Hf; cbn; try discriminate.
  intros [= <-]. split; [reflexivity|].
  destruct (filterM_elements _ _ _ Hf z) as [Hin Hp]; [apply elem_of_cons; now left|].
  destruct (getitem z (AStr "zaehlpunktnummer")) as [nr|] eqn:Hnr; cbn in Hp; [|discriminate].
  injection Hp as Hp. exists first, zaehlpunkte, items, z, nr. auto 10.
Qed.

Lemma get_zaehlpunkt_returns_example :
  SensorApi.contains "Exception"
    (JList [JDict {[ "zaehlpunkte" := JList [JDict (<["zaehlpunktnummer" := JStr "AT1"]> ∅)] ]}])
  = Ok false
  /\ exists first zaehlpunkte items z nr,
       getitem
         (JList [JDict {[ "zaehlpunkte" :=
                            JList [JDict (<["zaehlpunktnummer" := JStr "AT1"]> ∅)] ]}])
         (AInt 0) = Ok first
       /\ getitem first (AStr "zaehlpunkte") = Ok zaehlpunkte
       /\ SensorApi.iterate zaehlpunkte = Ok items
       /\ z ∈ items
       /\ getitem z (AStr "zaehlpunktnummer") = Ok nr
       /\ SensorApi.eq_str nr "AT1" = true
       /\ Some (translate_dict (JDict (<["zaehlpunktnummer" := JStr "AT1"]> ∅))
                  [("zaehlpunktnummer", "nr")])
          = Some (translate_dict z [("zaehlpunktnummer", "nr")]).
Proof.
  apply (get_zaehlpunkt_never_returns_None [("zaehlpunktnummer", "nr")] "AT1").
  reflexivity.
Defined.

(** X24.  [get_consumption] has three outcomes: [RuntimeError] exactly when
    the answer contains ["Exception"]; [TypeError] exactly when the answer
    is no dict, list or str (as [None]); and otherwise a dictionary whose
    keys are destinations of the attribute mapping and whose values are
    never [None]. *)
Theorem get_consumption_outcomes (attrs : list (string * string)) (response : json) :
  match SensorApi.get_consumption attrs response with
  | Raise e =>
      (e = RuntimeError /\ SensorApi.contains "Exception" response = Ok true)
      \/ (e = TypeError /\ SensorApi.contains "Exception" response = Raise TypeError
          /\ SensorApi.len response = Raise TypeError)
  | Ok d =>
      SensorApi.contains "Exception" response = Ok false
      /\ d = translate_dict response attrs
      /\ forall k v, d !! k = Some v -> v <> JNull /\ k ∈ attrs.*2
  end.
Proof.
  unfold SensorApi.get_consumption.
  destruct (SensorApi.contains "Exception" response) as [[|]|e] eqn:Hexc; cbn.
  - left. now split.
  - split; [reflexivity|]. split; [reflexivity|]. intros k v Hkv.
    apply translate_dict_fold_value in Hkv as [Hkv|(Hv & src & Hin & _)].
    + rewrite lookup_empty in Hkv. discriminate.
    + split; [exact Hv|]. apply list_elem_of_fmap. exists (src, k). now split.
  - right. destruct response; cbn in Hexc; try discriminate; injection Hexc as <-;
      repeat split.
Qed.

(** X25.  An answer that is [None] (or any value that is no dict, list or
    str) makes each of the three getters raise [TypeError] at the test of
    ["Exception"]: the guard [zps is None] of [get_zaehlpunkt] is never
    reached, and the exception is not the [RuntimeError] that
    [async_update] absorbs. *)
Theorem answer_None_raises_TypeError
    (attrs : list (string * string)) (zaehlpunkt : string) (answer : json) :
  SensorApi.len answer = Raise TypeError ->
  SensorApi.get_zaehlpunkt attrs zaehlpunkt answer = Raise TypeError
  /\ SensorApi.get_consumption attrs answer = Raise TypeError
  /\ SensorApi.get_welcome attrs answer = Raise TypeError
  /\ handled [CallLogin; CallZaehlpunkte] TypeError
     = {| available := true; calls := [CallLogin; CallZaehlpunkte]; imported := None;
          raised := Some TypeError |}.
Proof.
  intros Hlen. destruct answer; cbn in Hlen; try discriminate; repeat split.
Qed.

Lemma answer_None_example :
  SensorApi.get_zaehlpunkt [] "AT1" JNull = Raise TypeError
  /\ SensorApi.get_consumption [] JNull = Raise TypeError
  /\ SensorApi.get_welcome [] JNull = Raise TypeError
  /\ handled [CallLogin; CallZaehlpunkte] TypeError
     = {| available := true; calls := [CallLogin; CallZaehlpunkte]; imported := None;
          raised := Some TypeError |}.
Proof. apply (answer_None_raises_TypeError [] "AT1" JNull). reflexivity. Defined.

(** ** [utils.today] *)

(** X26.  [today()] is the start of the day of the local wall clock: a
    midnight not later than now and less than a day back; it is a naive
    datetime, so [_import_statistics] refuses every start computed from it
    with [ValueError] before it fetches anything. *)
Theorem today_is_a_naive_midnight (wall_us : Z) :
  exists t,
    call_today [] wall_us = Ok (Naive t)
    /\ t mod days 1 = 0
    /\ t <= wall_us < t + days 1
    /\ forall gc now delta sum_,
         _import_statistics gc now (py_add (today wall_us) delta) sum_
         = Some {| fetched := []; result_of := Failed ValueError |}.
Proof.
  exists (wall_us - wall_us mod 86400000000). unfold days.
  pose proof (Z.mod_pos_bound wall_us 86400000000 ltac:(lia)).
  split; [reflexivity|]. split; [|split; [lia|reflexivity]].
  rewrite Z.mul_1_l. rewrite Zminus_mod, Z.mod_mod, Z.sub_diag by lia. reflexivity.
Qed.
